(** * Gemini adapter: error taxonomy, client and router

    A shallow embedding of
      - backend/open_webui/utils/gemini/errors.py   (the error taxonomy),
      - backend/open_webui/utils/gemini/client.py   (GeminiClient),
      - backend/open_webui/routers/gemini.py        (configuration and
        chat-completion routes),
    and the properties of the specification that concern them.

    Python values that travel as JSON are values of [json]; a Python
    [dict] is a [gmap string json].  A computation that may raise is a
    value of [res]; a computation that may also talk to the provider is
    a value of [M], which threads the log of outbound requests.

    The model follows the statements of the three files, with Python's
    rules for them: a name that a file does not import is unbound, an
    [except] clause that names a class which is no exception class
    raises a TypeError when an exception reaches it, and a function
    with a [yield] in its body is an asynchronous generator function.
    What the libraries do is taken from outside: the provider behind
    aiohttp, [json.loads], [str()] of an object that is not a string
    and [hash()] are parameters; numbers are integers, and a line of
    the event stream is its decoded text. *)

From Stdlib Require Import ZArith String Ascii List Lia Bool.
From stdpp Require Import base option list strings gmap.
Import ListNotations.

Set Warnings "-register-all".

Local Open Scope Z_scope.
Local Open Scope string_scope.

(* ===================================================================== *)
(** ** Text: [str.lower] and the [in] operator on strings *)
(* ===================================================================== *)

Module Text.

(** [str.lower] on one character: the letters A..Z move to a..z.  A
    string is the sequence of the bytes of its UTF-8 text; Python also
    lowers letters outside ASCII, and none of them becomes a letter of
    the two phrases the client looks for. *)
Definition lower_ascii (c : ascii) : ascii :=
  let n := nat_of_ascii c in
  if (65 <=? n)%nat && (n <=? 90)%nat then ascii_of_nat (n + 32) else c.

Fixpoint lower (s : string) : string :=
  match s with
  | EmptyString => EmptyString
  | String c r => String (lower_ascii c) (lower r)
  end.

(** [starts p s]: [s.startswith(p)]. *)
Fixpoint starts (p s : string) : bool :=
  match p, s with
  | EmptyString, _ => true
  | String a p', String b s' => if Ascii.eqb a b then starts p' s' else false
  | String _ _, EmptyString => false
  end.

(** [contains p s]: the Python expression [p in s]. *)
Fixpoint contains (p s : string) : bool :=
  starts p s ||
  match s with
  | EmptyString => false
  | String _ s' => contains p s'
  end.

(** [contains_ci p s]: [p in s.lower()], the test the client uses. *)
Definition contains_ci (p s : string) : bool := contains p (lower s).

End Text.

(* ===================================================================== *)
(** ** JSON values and Python's operations on them *)
(* ===================================================================== *)

Inductive json : Type :=
| JNull
| JBool (b : bool)
| JNum (n : Z)
| JStr (s : string)
| JList (l : list json)
| JDict (d : gmap string json).

(** The classes of the exceptions the three files raise, catch or let
    through.  The first nine are the classes of errors.py. *)
Inductive exn_class : Type :=
| CGeminiError
| CGeminiAPIError
| CGeminiAuthenticationError
| CGeminiRateLimitError
| CGeminiModelNotFoundError
| CGeminiInvalidRequestError
| CGeminiContextLengthExceededError
| CGeminiServerError
| CGeminiTimeoutError
| CClientError            (* aiohttp.ClientError *)
| CAsyncioTimeoutError    (* asyncio.TimeoutError *)
| CJSONDecodeError        (* json.JSONDecodeError *)
| CKeyError
| CIndexError
| CAttributeError
| CTypeError
| CNameError
| CValidationError        (* pydantic.ValidationError *)
| CHTTPException.         (* fastapi.HTTPException *)

#[global] Instance exn_class_eq_dec : EqDecision exn_class.
Proof. solve_decision. Defined.

(** An exception object: its class, [str(e)] and the [status_code]
    attribute ([None] when the attribute holds Python's [None]). *)
Record exn : Type := MkExn {
  exn_cls : exn_class;
  exn_msg : string;
  status_code : option Z
}.

Inductive res (A : Type) : Type :=
| Ok (a : A)
| Raise (e : exn).
Arguments Ok {A} a.
Arguments Raise {A} e.

Definition res_bind {A B} (c : res A) (k : A -> res B) : res B :=
  match c with
  | Ok a => k a
  | Raise e => Raise e
  end.

Declare Scope res_scope.
Delimit Scope res_scope with res.
Notation "x <- c ;;; k" := (res_bind c (fun x => k))
  (at level 100, c at next level, right associativity) : res_scope.

(* ===================================================================== *)
(** ** errors.py *)
(* ===================================================================== *)

Module errors.

(** The direct base class of each class of errors.py. *)
Definition base (c : exn_class) : option exn_class :=
  match c with
  | CGeminiAPIError => Some CGeminiError
  | CGeminiAuthenticationError | CGeminiRateLimitError
  | CGeminiModelNotFoundError | CGeminiInvalidRequestError
  | CGeminiContextLengthExceededError | CGeminiServerError
  | CGeminiTimeoutError => Some CGeminiAPIError
  | _ => None
  end.

(** [issubclass c d]; the hierarchy of errors.py is two levels deep. *)
Definition issubclass (c d : exn_class) : bool :=
  bool_decide (c = d)
  || match base c with
     | Some b => bool_decide (b = d)
                 || match base b with
                    | Some b' => bool_decide (b' = d)
                    | None => false
                    end
     | None => false
     end.

Definition isinstance (e : exn) (d : exn_class) : bool :=
  issubclass (exn_cls e) d.

(** [GeminiError(message, status_code=None)]. *)
Definition GeminiError (message : string) (code : option Z) : exn :=
  MkExn CGeminiError message code.

(** [GeminiAPIError] inherits the constructor of [GeminiError]. *)
Definition GeminiAPIError (message : string) (code : option Z) : exn :=
  MkExn CGeminiAPIError message code.

(** The remaining constructors take an optional message (the Python
    default applies when it is not given) and fix the status code. *)
Definition GeminiAuthenticationError (message : option string) : exn :=
  MkExn CGeminiAuthenticationError (default "Invalid API key" message) (Some 401).

Definition GeminiRateLimitError (message : option string) : exn :=
  MkExn CGeminiRateLimitError (default "Rate limit exceeded" message) (Some 429).

Definition GeminiModelNotFoundError (model : string) : exn :=
  MkExn CGeminiModelNotFoundError ("Model '" ++ model ++ "' not found") (Some 404).

Definition GeminiInvalidRequestError (message : string) : exn :=
  MkExn CGeminiInvalidRequestError message (Some 400).

Definition GeminiContextLengthExceededError (message : option string) : exn :=
  MkExn CGeminiContextLengthExceededError
        (default "Maximum context length exceeded" message) (Some 400).

Definition GeminiServerError (message : option string) : exn :=
  MkExn CGeminiServerError (default "Internal server error" message) (Some 500).

Definition GeminiTimeoutError (message : option string) : exn :=
  MkExn CGeminiTimeoutError (default "Request timed out" message) (Some 504).

End errors.

(* ===================================================================== *)
(** ** Python's dynamic operations on JSON values *)
(* ===================================================================== *)

Module Py.

(** Truth value of an object, as [not x] and [x or y] use it. *)
Definition truthy (v : json) : bool :=
  match v with
  | JNull => false
  | JBool b => b
  | JNum n => negb (n =? 0)%Z
  | JStr s => negb (String.eqb s "")
  | JList l => match l with [] => false | _ => true end
  | JDict d => negb (bool_decide (d = ∅))
  end.

Definition type_name (v : json) : string :=
  match v with
  | JNull => "NoneType"
  | JBool _ => "bool"
  | JNum _ => "int"
  | JStr _ => "str"
  | JList _ => "list"
  | JDict _ => "dict"
  end.

Definition AttributeError (v : json) (attr : string) : exn :=
  MkExn CAttributeError
        ("'" ++ type_name v ++ "' object has no attribute '" ++ attr ++ "'") None.

(** [v.get(k, dflt)]: only a dict has the method. *)
Definition get (v : json) (k : string) (dflt : json) : res json :=
  match v with
  | JDict d => Ok (default dflt (d !! k))
  | _ => Raise (AttributeError v "get")
  end.

(** [v[k]] with a string key. *)
Definition getitem (v : json) (k : string) : res json :=
  match v with
  | JDict d =>
      match d !! k with
      | Some x => Ok x
      | None => Raise (MkExn CKeyError ("'" ++ k ++ "'") None)
      end
  | JList _ =>
      Raise (MkExn CTypeError "list indices must be integers or slices, not str" None)
  | JStr _ =>
      Raise (MkExn CTypeError "string indices must be integers, not 'str'" None)
  | _ =>
      Raise (MkExn CTypeError ("'" ++ type_name v ++ "' object is not subscriptable") None)
  end.

(** [v[0]].  The keys of a dict that came from JSON are strings, so
    the integer key is never present. *)
Definition first (v : json) : res json :=
  match v with
  | JList l =>
      match l with
      | x :: _ => Ok x
      | [] => Raise (MkExn CIndexError "list index out of range" None)
      end
  | JDict _ => Raise (MkExn CKeyError "0" None)
  | JStr s =>
      match s with
      | String c _ => Ok (JStr (String c EmptyString))
      | EmptyString => Raise (MkExn CIndexError "string index out of range" None)
      end
  | _ =>
      Raise (MkExn CTypeError ("'" ++ type_name v ++ "' object is not subscriptable") None)
  end.

(** [s.lower()] on an object: only a string has the method. *)
Definition lower (v : json) : res string :=
  match v with
  | JStr s => Ok (Text.lower s)
  | _ => Raise (AttributeError v "lower")
  end.

(** The text an f-string or [str()] renders for a scalar. *)
Definition str_opt (o : option string) : string := default "None" o.

(** [a or b] on optional strings: [a] when it is a non-empty string. *)
Definition or_str (a b : option string) : option string :=
  match a with
  | Some s => if String.eqb s "" then b else a
  | None => b
  end.

(** [a or b] on optional integers: [a] when it is a non-zero integer. *)
Definition or_int (a b : option Z) : option Z :=
  match a with
  | Some n => if (n =? 0)%Z then b else a
  | None => b
  end.

End Py.

(* ===================================================================== *)
(** ** The transport *)
(* ===================================================================== *)

(** An outbound HTTP request, as [session.request] receives it. *)
Record request : Type := MkRequest {
  req_method : string;
  req_url : string;
  req_headers : gmap string string;
  req_json : option json
}.

(** What the transport hands back once the provider has answered:
    the status, what [await response.json()] gives (a value, or the
    exception the read raises), the lines that iterating over
    [response.content] delivers, and the exception, if any, that the
    iteration raises after the last line. *)
Record ClientResponse : Type := MkResponse {
  status : Z;
  body : res json;
  content : list string;
  content_end : option exn
}.

(** [response.ok]: aiohttp reports a status below 400 as ok. *)
Definition ok (r : ClientResponse) : bool := (status r <? 400)%Z.

(** A client computation: it may append to the log of requests sent,
    and it returns a value or raises. *)
Definition M (A : Type) : Type := list request -> res A * list request.

Definition ret {A} (a : A) : M A := fun log => (Ok a, log).
Definition raise {A} (e : exn) : M A := fun log => (Raise e, log).
Definition lift {A} (c : res A) : M A := fun log => (c, log).
Definition bind {A B} (c : M A) (k : A -> M B) : M B :=
  fun log =>
    match c log with
    | (Ok a, log') => k a log'
    | (Raise e, log') => (Raise e, log')
    end.

Declare Scope client_scope.
Delimit Scope client_scope with client.
Notation "x <- c ;; k" := (bind c (fun x => k))
  (at level 100, c at next level, right associativity) : client_scope.

(** [await g] where [g] is an asynchronous generator object: the body
    of the generator does not run, and Python raises a TypeError. *)
Definition await_generator {A B} (g : M A) : M B :=
  raise (MkExn CTypeError
               "object async_generator can't be used in 'await' expression" None).

(** The values client.py and the router import from open_webui.env. *)
Module env.
Record t : Type := Mk {
  GEMINI_API_KEY : option string;
  GEMINI_API_BASE_URL : option string;
  AIOHTTP_CLIENT_TIMEOUT : option Z;
  ENABLE_GEMINI_API : bool
}.
End env.

(* ===================================================================== *)
(** ** client.py *)
(* ===================================================================== *)

Module client.
Import errors.

Record GeminiClient : Type := MkClient {
  api_key : option string;
  api_base_url : option string;
  timeout : option Z
}.

Section WithProvider.

(** The provider behind the transport: the response to a request, or
    the exception [session.request] raises. *)
Variable provider : request -> res ClientResponse.
(** [json.loads] on a decoded line. *)
Variable json_loads : string -> res json.
(** [str()] of an object that is not a string. *)
Variable repr : json -> string.
Variable env : env.t.

Definition str (v : json) : string :=
  match v with
  | JStr s => s
  | _ => repr v
  end.

(** [GeminiClient.__init__] *)
Definition __init__ (api_key api_base_url : option string) (timeout : option Z)
  : M GeminiClient :=
  let self_api_key := Py.or_str api_key (env.GEMINI_API_KEY env) in
  let self_api_base_url := Py.or_str api_base_url (env.GEMINI_API_BASE_URL env) in
  let self_timeout :=
    Py.or_int (Py.or_int timeout (env.AIOHTTP_CLIENT_TIMEOUT env)) (Some 300%Z) in
  if negb (Py.truthy (from_option JStr JNull self_api_key))
  then raise (GeminiError "Gemini API key is required" None)
  else ret (MkClient self_api_key self_api_base_url self_timeout).

(** Lines 68-92 of [_make_request]: the body of the
    [async with session.request(...) as response] block. *)
Definition check_response (data : option (gmap string json))
    (response : ClientResponse)
  : res ClientResponse :=
  (if negb (ok response) then
     error_data <- body response ;;;
     error_info <- Py.get error_data "error" (JDict ∅) ;;;
     error_message <- Py.get error_info "message" (JStr "Unknown error") ;;;
     let error_code := status response in
     if (error_code =? 401)%Z then
       Raise (GeminiAuthenticationError None)
     else if (error_code =? 429)%Z then
       Raise (GeminiRateLimitError (Some (str error_message)))
     else
       in404 <- (if (error_code =? 404)%Z
                 then low <- Py.lower error_message ;;;
                      Ok (Text.contains "model not found" low)
                 else Ok false) ;;;
       if in404 : bool then
         model <- match data with
                  | Some d => if Py.truthy (JDict d)
                              then Py.get (JDict d) "model" (JStr "unknown")
                              else Ok (JStr "unknown")
                  | None => Ok (JStr "unknown")
                  end ;;;
         Raise (GeminiModelNotFoundError (str model))
       else if (error_code =? 400)%Z then
         low <- Py.lower error_message ;;;
         if Text.contains "context length exceeded" low
         then Raise (GeminiContextLengthExceededError (Some (str error_message)))
         else Raise (GeminiInvalidRequestError (str error_message))
       else if (500 <=? error_code)%Z then
         Raise (GeminiServerError (Some (str error_message)))
       else
         Raise (GeminiAPIError (str error_message) (Some error_code))
   else Ok response)%res.

(** The [except] clauses of [_make_request].  The first one names
    [aiohttp.ClientTimeout], the class of the timeout settings that
    line 59 constructs; it is no exception class.  When an exception
    raised in the [try] reaches the clause, Python does not match it:
    it raises a TypeError, and the two clauses below are never tried. *)
Definition handle_transport {A} (r : res A) : res A :=
  match r with
  | Ok a => Ok a
  | Raise e =>
      Raise (MkExn CTypeError
               "catching classes that do not inherit from BaseException is not allowed"
               None)
  end.

(** Lines 53-57 and 62-67 of [_make_request]: the request handed to
    [session.request]. *)
Definition build_request (self : GeminiClient) (method endpoint : string)
    (data : option (gmap string json)) : request :=
  let url := Py.str_opt (api_base_url self) ++ "/" ++ endpoint in
  let headers : gmap string string :=
    {[ "Content-Type" := "application/json";
       "x-goog-api-key" := Py.str_opt (api_key self) ]} in
  MkRequest method url headers (JDict <$> data).

(** [GeminiClient._make_request] *)
Definition _make_request (self : GeminiClient) (method endpoint : string)
    (data : option (gmap string json)) (stream : bool) : M ClientResponse :=
  let req := build_request self method endpoint data in
  fun log =>
    (handle_transport
       (response <- provider req ;;; check_response data response)%res,
     (log ++ [req])%list).

(** [GeminiClient.list_models] *)
Definition list_models (self : GeminiClient) : M json :=
  (response <- _make_request self "GET" "" None false ;;
   data <- lift (body response) ;;
   lift (Py.get data "models" (JList [])))%client.

(** The dictionary [_process_response] returns. *)
Definition normalized (text finish_reason : json) : json :=
  JDict {[
    "choices" := JList [
      JDict {[ "message" := JDict {[ "role" := JStr "assistant";
                                     "content" := text ]};
               "finish_reason" := finish_reason ]} ];
    "usage" := JDict {[ "prompt_tokens" := JNum 0;
                        "completion_tokens" := JNum 0;
                        "total_tokens" := JNum 0 ]} ]}.

(** The [try] block of [_process_response]. *)
Definition process_body (data : json) : res json :=
  (candidates <- Py.get data "candidates" (JList []) ;;;
   if negb (Py.truthy candidates) then
     Raise (GeminiError "No response from the model" None)
   else
     candidate <- Py.first candidates ;;;
     content <- Py.get candidate "content" (JDict ∅) ;;;
     parts <- Py.get content "parts" (JList []) ;;;
     if negb (Py.truthy parts) then
       Raise (GeminiError "Empty response from the model" None)
     else
       part <- Py.first parts ;;;
       text <- Py.get part "text" (JStr "") ;;;
       candidate' <- Py.first candidates ;;;
       finish_reason <- Py.get candidate' "finishReason" (JStr "stop") ;;;
       Ok (normalized text finish_reason))%res.

(** [GeminiClient._process_response] *)
Definition _process_response (data : json) : res json :=
  match process_body data with
  | Ok r => Ok r
  | Raise e =>
      if isinstance e CKeyError || isinstance e CIndexError
      then Raise (GeminiError ("Failed to process response: " ++ exn_msg e) None)
      else Raise e
  end.

(** One element of the ["contents"] list of the payload. *)
Definition content_of (msg : json) : res json :=
  (role <- Py.getitem msg "role" ;;;
   text <- Py.getitem msg "content" ;;;
   Ok (JDict {[ "role" := role;
                "parts" := JList [JDict {[ "text" := text ]}] ]}))%res.

Fixpoint contents_of (messages : list json) : res (list json) :=
  match messages with
  | [] => Ok []
  | msg :: rest =>
      (c <- content_of msg ;;;
       cs <- contents_of rest ;;;
       Ok (c :: cs))%res
  end.

(** The [data] dictionary [generate_content] posts. *)
Definition payload (messages : list json) (temperature max_tokens : json)
  : res (gmap string json) :=
  (cs <- contents_of messages ;;;
   Ok {[ "contents" := JList cs;
         "generationConfig" :=
           JDict {[ "temperature" := temperature;
                    "maxOutputTokens" := max_tokens ]} ]})%res.

(** The loop over [response.content]: the chunks yielded, and the
    exception that ends the generator, if one does.  [stopped] is what
    the iteration itself raises after the last line. *)
Fixpoint stream_chunks (lines : list string) (stopped : option exn)
  : list json * option exn :=
  match lines with
  | [] => ([], stopped)
  | line :: rest =>
      if String.eqb line "" then stream_chunks rest stopped
      else
        match (data <- json_loads line ;;; _process_response data)%res with
        | Ok chunk =>
            let '(chunks, e) := stream_chunks rest stopped in
            (chunk :: chunks, e)
        | Raise e =>
            if isinstance e CJSONDecodeError
            then stream_chunks rest stopped
            else ([], Some e)
        end
  end.

(** The first half of [generate_content]: the payload, the endpoint
    and the request. *)
Definition post_content (self : GeminiClient) (model : string)
    (messages : list json) (temperature max_tokens : json) (stream : bool)
  : M ClientResponse :=
  (data <- lift (payload messages temperature max_tokens) ;;
   let endpoint :=
     model ++ ":generateContent" ++ (if stream then "?alt=sse" else "") in
   _make_request self "POST" endpoint (Some data) stream)%client.

(** [GeminiClient.generate_content].  The body holds a [yield] (line
    142), so the function is an asynchronous generator function:
    calling it runs nothing, and what is defined here is the run of
    its body when the generator is iterated, that is the chunks it
    yields and the exception that ends it, if one does.  Whatever the
    body raises, it raises while the caller iterates.  With [stream]
    unset the body yields nothing; Python does not accept the value
    that line 147 returns, and no caller iterates in that case. *)
Definition generate_content (self : GeminiClient) (model : string)
    (messages : list json) (temperature max_tokens : json) (stream : bool)
  : M (list json * option exn) :=
  fun log =>
    match post_content self model messages temperature max_tokens stream log with
    | (Ok response, log') =>
        if stream then
          (Ok (stream_chunks (content response) (content_end response)), log')
        else
          match (data <- body response ;;; _process_response data)%res with
          | Ok _ => (Ok ([], None), log')
          | Raise e => (Ok ([], Some e), log')
          end
    | (Raise e, log') => (Ok ([], Some e), log')
    end.

End WithProvider.
End client.

(* ===================================================================== *)
(** ** routers/gemini.py *)
(* ===================================================================== *)

Module router.
Import errors.

(** The module's global names: the three configuration values it
    imported from open_webui.env, and the client built when the module
    was loaded. *)
Record State : Type := MkState {
  GEMINI_API_KEY : option string;
  GEMINI_API_BASE_URL : option string;
  ENABLE_GEMINI_API : bool;
  gemini_client : client.GeminiClient
}.

Record GeminiConfig : Type := MkConfig {
  api_key : string;
  api_base_url : string;
  enabled : bool
}.

Record GeminiChatMessage : Type := MkMessage {
  role : string;
  content : string
}.

Record GeminiChatRequest : Type := MkChatRequest {
  messages : list GeminiChatMessage;
  model : string;
  temperature : json;
  max_tokens : json;
  stream : option bool
}.

Record GeminiChatResponse : Type := MkChatResponse {
  id : string;
  choices : json;
  response_model : string;
  usage : json
}.

(** One element of the text stream [generate()] yields:
    [DataEvent t] is the line "data: " + t, for the text [t] that
    [json.dumps] gives for a chunk,
    [ErrorEvent t] is the same line for the text of the error object
    {"error": {"message": ..., "code": ...}},
    [DoneEvent] is the line "data: [DONE]". *)
Inductive sse_event : Type :=
| DataEvent (text : string)
| ErrorEvent (text : string)
| DoneEvent.

(** What [chat_completions] returns: a response object, or the
    streaming response, given by the events its generator yields and
    the exception that ends the generator, if one does. *)
Inductive chat_result : Type :=
| Completed (r : GeminiChatResponse)
| StreamingResponse (events : list sse_event) (aborted : option exn).

Definition HTTPException (code : Z) (detail : string) : exn :=
  MkExn CHTTPException detail (Some code).

(** [json.dumps(v)] in routers/gemini.py: the file does not import
    [json], so looking the name up raises a NameError. *)
Definition json_dumps (v : json) : res string :=
  Raise (MkExn CNameError "name 'json' is not defined" None).

(** The object {"error": {"message": str(e), "code": e.status_code}}
    of lines 132-134. *)
Definition error_response (e : exn) : json :=
  JDict {[ "error" :=
             JDict {[ "message" := JStr (exn_msg e);
                      "code" := from_option JNum JNull (status_code e) ]} ]}.

Section WithProvider.

Variable provider : request -> res ClientResponse.
Variable json_loads : string -> res json.
Variable repr : json -> string.
(** [hash(str(messages))], rendered as text. *)
Variable hash_str : list json -> string.

(** [get_config]: the response model takes a string for the key and
    for the base URL, and pydantic raises a ValidationError for
    [None]. *)
Definition get_config (st : State) : res GeminiConfig :=
  match GEMINI_API_KEY st, GEMINI_API_BASE_URL st with
  | Some k, Some u => Ok (MkConfig k u (ENABLE_GEMINI_API st))
  | _, _ => Raise (MkExn CValidationError "Input should be a valid string" None)
  end.

(** [update_config]: rebinds the three global names. *)
Definition update_config (config : GeminiConfig) (st : State)
  : GeminiConfig * State :=
  (config,
   MkState (Some (api_key config)) (Some (api_base_url config))
           (enabled config) (gemini_client st)).

(** [except GeminiError as e: raise HTTPException(...)] *)
Definition to_http {A} (c : M A) : M A :=
  fun log =>
    match c log with
    | (Raise e, log') =>
        if isinstance e CGeminiError
        then (Raise (HTTPException
                       (default 500%Z (Py.or_int (status_code e) (Some 500%Z)))
                       (exn_msg e)), log')
        else (Raise e, log')
    | out => out
    end.

(** [s.split("/")[-1]] *)
Fixpoint last_segment (s acc : string) : string :=
  match s with
  | EmptyString => acc
  | String c r =>
      if Ascii.eqb c "/"%char then last_segment r ""
      else last_segment r (acc ++ String c "")
  end.

(** One [GeminiModel(...)] of the list [get_models] returns. *)
Definition to_model (m : json) : res json :=
  (name <- Py.getitem m "name" ;;;
   id <- match name with
         | JStr s => Ok (JStr (last_segment s ""))
         | _ => Raise (Py.AttributeError name "split")
         end ;;;
   display <- Py.get m "displayName" name ;;;
   description <- Py.get m "description" (JStr "") ;;;
   limit <- Py.get m "tokenLimit" (JNum 30720) ;;;
   Ok (JDict {[ "id" := id; "name" := display;
                "description" := description; "max_tokens" := limit ]}))%res.

Fixpoint to_models (ms : list json) : res (list json) :=
  match ms with
  | [] => Ok []
  | m :: rest =>
      (x <- to_model m ;;; xs <- to_models rest ;;; Ok (x :: xs))%res
  end.

(** What [for model in models] iterates over. *)
Definition iterate (v : json) : res (list json) :=
  match v with
  | JList l => Ok l
  | JDict d => Ok (JStr <$> (map_to_list d).*1)
  | JStr s => Ok ((fun c => JStr (String c "")) <$> list_ascii_of_string s)
  | _ => Raise (MkExn CTypeError
                      ("'" ++ Py.type_name v ++ "' object is not iterable") None)
  end.

(** [get_models] *)
Definition get_models (st : State) : M (list json) :=
  if negb (ENABLE_GEMINI_API st) then
    raise (HTTPException 400 "Gemini API is not enabled")
  else
    to_http
      (models <- client.list_models provider repr (gemini_client st) ;;
       ms <- lift (iterate models) ;;
       lift (to_models ms))%client.

(** The loop of lines 123-130: one data line for each chunk, until
    [json.dumps] raises. *)
Fixpoint data_events (chunks : list json) : list sse_event * option exn :=
  match chunks with
  | [] => ([], None)
  | chunk :: rest =>
      match json_dumps chunk with
      | Ok text =>
          let '(events, raised) := data_events rest in
          (DataEvent text :: events, raised)
      | Raise e => ([], Some e)
      end
  end.

(** The generator [generate()] inside [chat_completions], run to its
    end over the run of [generate_content]'s body.  An exception of
    the loop, from the client's generator or from [json.dumps], meets
    [except GeminiError]; the final line is yielded after the [try]
    statement, so only when no exception leaves it. *)
Definition generate (g : list json * option exn) : list sse_event * option exn :=
  let '(chunks, stopped) := g in
  let '(events, raised) :=
    match data_events chunks with
    | (events, Some e) => (events, Some e)
    | (events, None) => (events, stopped)
    end in
  match raised with
  | None => ((events ++ [DoneEvent])%list, None)
  | Some e =>
      if isinstance e CGeminiError then
        match json_dumps (error_response e) with
        | Ok text => ((events ++ [ErrorEvent text; DoneEvent])%list, None)
        | Raise e' => (events, Some e')
        end
      else (events, Some e)
  end.

(** [chat_completions] *)
Definition chat_completions (chat_request : GeminiChatRequest) (st : State)
  : M chat_result :=
  if negb (ENABLE_GEMINI_API st) then
    raise (HTTPException 400 "Gemini API is not enabled")
  else if negb (Py.truthy (from_option JStr JNull (GEMINI_API_KEY st))) then
    raise (HTTPException 400 "Gemini API key is not configured")
  else
    let msgs :=
      (fun msg => JDict {[ "role" := JStr (role msg);
                           "content" := JStr (content msg) ]})
        <$> messages chat_request in
    to_http
      (if default false (stream chat_request) then
         g <- client.generate_content provider json_loads repr
                (gemini_client st) (model chat_request) msgs
                (temperature chat_request) (max_tokens chat_request) true ;;
         let '(events, aborted) := generate g in
         ret (StreamingResponse events aborted)
       else
         response <- await_generator
                (client.generate_content provider json_loads repr
                   (gemini_client st) (model chat_request) msgs
                   (temperature chat_request) (max_tokens chat_request) false) ;;
         cs <- lift (Py.getitem response "choices") ;;
         us <- lift (Py.getitem response "usage") ;;
         ret (Completed
                (MkChatResponse
                   ("gemini-" ++ model chat_request ++ "-" ++ hash_str msgs)
                   cs (model chat_request) us)))%client.

End WithProvider.
End router.

(* ===================================================================== *)
(** * The vocabulary of the properties *)
(* ===================================================================== *)

(** [taxonomy e]: [e] is an error of the taxonomy, that is an instance
    of [GeminiError]. *)
Definition taxonomy (e : exn) : bool := errors.isinstance e CGeminiError.

(** The TypeError of the first [except] clause of [_make_request]. *)
Definition clause_error : exn :=
  MkExn CTypeError
        "catching classes that do not inherit from BaseException is not allowed"
        None.

(** The TypeError of [await] on an asynchronous generator object. *)
Definition await_error : exn :=
  MkExn CTypeError "object async_generator can't be used in 'await' expression" None.

(** The NameError of [json.dumps] in routers/gemini.py. *)
Definition dumps_error : exn := MkExn CNameError "name 'json' is not defined" None.

(** The message of the provider's error envelope, as lines 69-71 of
    client.py read it. *)
Definition provider_message (r : ClientResponse) : res json :=
  (error_data <- body r ;;;
   error_info <- Py.get error_data "error" (JDict ∅) ;;;
   Py.get error_info "message" (JStr "Unknown error"))%res.

(** The precedence table of the specification: the kind of error for a
    status code and a provider message. *)
Definition spec_kind (code : Z) (msg : string) : exn_class :=
  if (code =? 401)%Z then CGeminiAuthenticationError
  else if (code =? 429)%Z then CGeminiRateLimitError
  else if (code =? 404)%Z && Text.contains_ci "model not found" msg
       then CGeminiModelNotFoundError
  else if (code =? 400)%Z then
         if Text.contains_ci "context length exceeded" msg
         then CGeminiContextLengthExceededError
         else CGeminiInvalidRequestError
  else if (500 <=? code)%Z then CGeminiServerError
  else CGeminiAPIError.

(** [field k v]: the value under the key [k] of the dictionary [v]. *)
Definition field (k : string) (v : json) : option json :=
  match v with
  | JDict d => d !! k
  | _ => None
  end.

(** A candidate without content parts: it has no "content", or its
    content object has no "parts" or an empty list of them. *)
Definition no_parts (cand : gmap string json) : Prop :=
  cand !! "content" = None
  \/ exists cont, cand !! "content" = Some (JDict cont)
                  /\ (cont !! "parts" = None \/ cont !! "parts" = Some (JList [])).

(** The InvalidRequest family: the instances of
    [GeminiInvalidRequestError], and more generally the errors with the
    status code 400 of that kind. *)
Definition invalid_request_family (e : exn) : bool :=
  errors.isinstance e CGeminiInvalidRequestError
  || bool_decide (status_code e = Some 400%Z).

(** [sent_by c log log']: over the run from [log] to [log'] nothing
    was sent, or one request built by [c]. *)
Definition sent_by (c : client.GeminiClient) (log log' : list request) : Prop :=
  log' = log
  \/ exists method endpoint data,
       log' = (log ++ [client.build_request c method endpoint data])%list.

(** A request carries the credentials of the client [c]: its key in
    the "x-goog-api-key" header, and a URL under its base URL. *)
Definition carries_config_of (c : client.GeminiClient) (req : request) : Prop :=
  req_headers req !! "x-goog-api-key" = Some (Py.str_opt (client.api_key c))
  /\ exists endpoint,
       req_url req = Py.str_opt (client.api_base_url c) ++ "/" ++ endpoint.

(** Values the examples run on. *)
Module Fixtures.

Definition repr0 (v : json) : string := "".

Definition self0 : client.GeminiClient :=
  client.MkClient (Some "key-1") (Some "https://provider.test/v1beta/models")
                  (Some 300%Z).

(** The provider's error envelope with the message [m]. *)
Definition envelope (m : string) : json :=
  JDict {[ "error" := JDict {[ "message" := JStr m ]} ]}.

(** A provider that answers every request with status [code] and the
    envelope of [m]. *)
Definition answers (code : Z) (m : string) (_ : request) : res ClientResponse :=
  Ok (MkResponse code (Ok (envelope m)) [] None).

Definition env0 : env.t :=
  env.Mk (Some "key-1") (Some "https://provider.test/v1beta/models") None true.

(** The message {"role": "user", "content": "hi"}. *)
Definition user_hi : json :=
  JDict {[ "role" := JStr "user"; "content" := JStr "hi" ]}.

(** A [json.loads] that rejects every line. *)
Definition no_loads (_ : string) : res json :=
  Raise (MkExn CJSONDecodeError "Expecting value: line 1 column 1 (char 0)" None).

(** The provider response
    {"candidates": [{"content": {"parts": [{"text": "hello"}]},
                     "finishReason": "stop"}]}. *)
Definition part_hello : gmap string json := {[ "text" := JStr "hello" ]}.
Definition content_hello : gmap string json :=
  {[ "parts" := JList [JDict part_hello] ]}.
Definition candidate_hello : gmap string json :=
  {[ "content" := JDict content_hello; "finishReason" := JStr "stop" ]}.
Definition hello : gmap string json :=
  {[ "candidates" := JList [JDict candidate_hello] ]}.

(** The provider response {"candidates": [{"content": {"parts": [{}]}}]}. *)
Definition candidate_blank : gmap string json :=
  {[ "content" := JDict {[ "parts" := JList [JDict ∅] ]} ]}.
Definition blank : gmap string json :=
  {[ "candidates" := JList [JDict candidate_blank] ]}.

(** A provider that answers every request with status 200 and the
    body {"models": []}. *)
Definition lists_nothing (_ : request) : res ClientResponse :=
  Ok (MkResponse 200 (Ok (JDict {[ "models" := JList [] ]})) [] None).

(** The state of the router when its globals are the values of
    [env0] and its client is [self0]. *)
Definition st0 : router.State :=
  router.MkState (Some "key-1") (Some "https://provider.test/v1beta/models")
                 true self0.

(** The double quote. *)
Definition q : string := String "034"%char EmptyString.

(** The line
    {"candidates": [{"content": {"parts": [{"text": "hello"}]},
                     "finishReason": "stop"}]}
    as the provider writes it. *)
Definition hello_line : string :=
  "{" ++ q ++ "candidates" ++ q ++ ": [{" ++ q ++ "content" ++ q ++ ": {"
  ++ q ++ "parts" ++ q ++ ": [{" ++ q ++ "text" ++ q ++ ": " ++ q ++ "hello" ++ q
  ++ "}]}, " ++ q ++ "finishReason" ++ q ++ ": " ++ q ++ "stop" ++ q ++ "}]}".

(** [json.loads] on the lines the examples use: the line above, the
    empty array and the empty object are JSON texts; any other line of
    the examples is not. *)
Definition stream_loads (line : string) : res json :=
  if String.eqb line hello_line then Ok (JDict hello)
  else if String.eqb line "[]" then Ok (JList [])
  else if String.eqb line "{}" then Ok (JDict ∅)
  else no_loads line.

(** A provider that answers every request with status 200 and the
    given lines as its event stream. *)
Definition streams (lines : list string) (stopped : option exn) (_ : request)
  : res ClientResponse :=
  Ok (MkResponse 200 (Ok JNull) lines stopped).

(** The chat request {model: "gemini-pro", messages: [user: "hi"]}. *)
Definition chat_hi (stream : bool) : router.GeminiChatRequest :=
  router.MkChatRequest [router.MkMessage "user" "hi"] "gemini-pro" JNull JNull
                       (Some stream).

Definition hash0 (_ : list json) : string := "0".

End Fixtures.

(** ** The vocabulary of the further properties *)

(** [chat_message m role text]: [m] is a dictionary with the role
    [role] under "role" and the text [text] under "content". *)
Definition chat_message (m role text : json) : Prop :=
  exists d, m = JDict d /\ d !! "role" = Some role /\ d !! "content" = Some text.

(** The dictionaries [chat_completions] builds from the messages of a
    request (lines 116-118 of the router). *)
Definition message_dicts (msgs : list router.GeminiChatMessage) : list json :=
  (fun msg => JDict {[ "role" := JStr (router.role msg);
                       "content" := JStr (router.content msg) ]}) <$> msgs.

(** The element of "contents" for a message with this role and text:
    {"role": role, "parts": [{"text": text}]}. *)
Definition content_entry (role text : json) : json :=
  JDict {[ "role" := role; "parts" := JList [JDict {[ "text" := text ]}] ]}.

(** The content of a line for the loop of [generate_content]: blank,
    that is empty or rejected by [json.loads] with JSONDecodeError. *)
Definition blank_line (json_loads : string -> res json) (line : string) : Prop :=
  line = "" \/ exists e, json_loads line = Raise e /\ exn_cls e = CJSONDecodeError.

(** The seven classes of errors.py that derive from [GeminiAPIError]. *)
Definition specialised (c : exn_class) : bool :=
  bool_decide (errors.base c = Some CGeminiAPIError).

(** [has_slash s]: the character "/" occurs in [s]. *)
Fixpoint has_slash (s : string) : bool :=
  match s with
  | EmptyString => false
  | String c r => Ascii.eqb c "/"%char || has_slash r
  end.

(** The optional fields of a model of the provider have the types the
    response model of the route declares: the display name, when
    present, is a string; the description a string or null; the token
    limit an integer or null. *)
Definition typed_fields (d : gmap string json) : Prop :=
  (d !! "displayName" = None \/ exists s, d !! "displayName" = Some (JStr s))
  /\ (d !! "description" = None \/ d !! "description" = Some JNull
      \/ exists s, d !! "description" = Some (JStr s))
  /\ (d !! "tokenLimit" = None \/ d !! "tokenLimit" = Some JNull
      \/ exists n, d !! "tokenLimit" = Some (JNum n)).

(** [named m]: [m] is a dictionary with a string under "name" and
    optional fields of the declared types. *)
Definition named (m : json) : Prop :=
  exists d s, m = JDict d /\ d !! "name" = Some (JStr s) /\ typed_fields d.

(** [model_entry m o]: [o] is the entry of the model listing for the
    provider's model [m]: its id is the last segment of the name, its
    name the display name or else the name, its description the
    description or else the empty string, its token limit the
    provider's or else 30720. *)
Definition model_entry (m o : json) : Prop :=
  exists d s,
    m = JDict d /\ d !! "name" = Some (JStr s)
    /\ o = JDict {[ "id" := JStr (router.last_segment s "");
                    "name" := default (JStr s) (d !! "displayName");
                    "description" := default (JStr "") (d !! "description");
                    "max_tokens" := default (JNum 30720) (d !! "tokenLimit") ]}.

(* ===================================================================== *)
(** * Properties *)
(* ===================================================================== *)

(** ** Text *)

Lemma starts_spec (p s : string) :
  Text.starts p s = true <-> exists b, s = p ++ b.
Proof.
  revert s. induction p as [|a p IH]; intros s; simpl.
  - split; [intros _; by exists s | done].
  - destruct s as [|c s].
    + split; [done | intros [b Hb]; discriminate].
    + destruct (Ascii.eqb_spec a c) as [->|Hne].
      * rewrite IH. split; intros [b Hb]; exists b; [by rewrite Hb | by injection Hb].
      * split; [done | intros [b Hb]; injection Hb; congruence].
Qed.

(** [Text.contains p s] holds exactly when [p] occurs in [s]. *)
Lemma contains_spec (p s : string) :
  Text.contains p s = true <-> exists a b, s = a ++ p ++ b.
Proof.
  induction s as [|c s IH]; simpl.
  - rewrite orb_false_r, starts_spec. split.
    + intros [b Hb]. by exists "", b.
    + intros [a [b Hb]]. destruct a; [by exists b | discriminate].
  - rewrite orb_true_iff, IH, starts_spec. split.
    + intros [[b Hb]|[a [b Hb]]].
      * by exists "", b.
      * exists (String c a), b. simpl. by rewrite Hb.
    + intros [a [b Hb]]. destruct a as [|c' a]; simpl in Hb.
      * left. by exists b.
      * right. injection Hb as _ Hb. by exists a, b.
Qed.

(** ** Tactics *)

(** Decides an [isinstance] test from the class [H] gives. *)
Ltac by_class H :=
  unfold errors.isinstance, errors.issubclass; by rewrite H.

(** ** Classification of provider errors *)

Section Classification.

Variable provider : request -> res ClientResponse.
Variable repr : json -> string.

Lemma provider_message_inv (r : ClientResponse) (m : json) :
  provider_message r = Ok m ->
  exists error_data error_info,
    body r = Ok error_data
    /\ Py.get error_data "error" (JDict ∅) = Ok error_info
    /\ Py.get error_info "message" (JStr "Unknown error") = Ok m.
Proof.
  unfold provider_message, res_bind. intros H.
  destruct (body r) as [ed|]; [|discriminate].
  destruct (Py.get ed "error" (JDict ∅)) as [ei|] eqn:Hei; [|discriminate].
  by exists ed, ei.
Qed.

(** An exception raised in the [try] of [_make_request] never leaves
    the function as it is: the first [except] clause replaces it by
    the TypeError [clause_error]. *)
Lemma handle_transport_raises {A} (r : res A) (e : exn) :
  client.handle_transport r = Raise e ->
  e = clause_error /\ exists e0, r = Raise e0.
Proof.
  destruct r as [a|e0]; simpl; [discriminate|].
  intros [= <-]. split; [reflexivity | by exists e0].
Qed.

(** [clause_error] is a TypeError, outside the taxonomy and without a
    status code. *)
Lemma clause_error_outside :
  exn_cls clause_error = CTypeError
  /\ taxonomy clause_error = false
  /\ status_code clause_error = None.
Proof. by repeat split. Qed.

(** What [_make_request] does with a response for which the block of
    lines 68-92 raises. *)
Lemma make_request_replaces (self : client.GeminiClient)
    (method endpoint : string) (data : option (gmap string json))
    (stream : bool) (log : list request) (r : ClientResponse) (e : exn) :
  provider (client.build_request self method endpoint data) = Ok r ->
  client.check_response repr data r = Raise e ->
  client._make_request provider repr self method endpoint data stream log
  = (Raise clause_error,
     (log ++ [client.build_request self method endpoint data])%list).
Proof.
  intros Hp He. unfold client._make_request. rewrite Hp. simpl.
  by rewrite He.
Qed.

(** The outcomes of [_make_request]: the response, with a status
    below 400, or [clause_error]; one request is sent in both. *)
Lemma make_request_outcomes (self : client.GeminiClient)
    (method endpoint : string) (data : option (gmap string json))
    (stream : bool) (log : list request) :
  let req := client.build_request self method endpoint data in
  (exists r, provider req = Ok r /\ (status r < 400)%Z
             /\ client._make_request provider repr self method endpoint data stream log
                = (Ok r, (log ++ [req])%list))
  \/ client._make_request provider repr self method endpoint data stream log
     = (Raise clause_error, (log ++ [req])%list).
Proof.
  intros req. unfold client._make_request. fold req.
  destruct (provider req) as [r|e]; simpl; [|by right].
  unfold client.check_response, ok.
  destruct (Z.ltb_spec (status r) 400) as [Hlt|Hge]; simpl.
  - left. by exists r.
  - right.
    match goal with
    | |- (client.handle_transport ?x, _) = _ => destruct x as [a|e] eqn:Hx
    end; [|reflexivity].
    exfalso. revert Hx.
    unfold res_bind.
    repeat match goal with
           | |- Raise _ = Ok _ -> _ => discriminate
           | |- context [match ?x with _ => _ end] => destruct x; simpl
           end.
Qed.


(** What the block of lines 68-92 raises for a response that is not
    ok and carries an error envelope with a textual message. *)
Lemma check_response_raises (data : option (gmap string json))
    (r : ClientResponse) (msg : string) :
  (400 <= status r)%Z ->
  provider_message r = Ok (JStr msg) ->
  exists e,
    client.check_response repr data r = Raise e
    /\ taxonomy e = true
    /\ exn_cls e = spec_kind (status r) msg
    /\ (spec_kind (status r) msg = CGeminiAPIError ->
        e = errors.GeminiAPIError msg (Some (status r))).
Proof.
  intros Hst Hmsg.
  destruct (provider_message_inv _ _ Hmsg) as (ed & ei & Hb & Hei & Hm).
  unfold client.check_response, ok, spec_kind, Text.contains_ci.
  replace (status r <? 400)%Z with false by (symmetry; apply Z.ltb_ge; lia).
  simpl. rewrite Hb. simpl. rewrite Hei. simpl. rewrite Hm. simpl.
  destruct (status r =? 401)%Z eqn:E401; [eexists; repeat split; done|].
  destruct (status r =? 429)%Z eqn:E429; [eexists; repeat split; done|].
  destruct (status r =? 404)%Z eqn:E404; simpl.
  - destruct (Text.contains "model not found" (Text.lower msg)) eqn:Ec; simpl.
    + destruct data as [d|]; simpl.
      * destruct (negb (bool_decide (d = ∅))); simpl;
          eexists; repeat split; done.
      * eexists; repeat split; done.
    + apply Z.eqb_eq in E404. rewrite E404. simpl.
      eexists; repeat split; done.
  - destruct (status r =? 400)%Z eqn:E400; simpl.
    + destruct (Text.contains "context length exceeded" (Text.lower msg));
        eexists; repeat split; done.
    + destruct (500 <=? status r)%Z eqn:E500;
        eexists; repeat split; done.
Qed.

End Classification.

(** The table [spec_kind], line by line. *)
Lemma spec_kind_table (code : Z) (msg : string) :
  (code = 401%Z -> spec_kind code msg = CGeminiAuthenticationError)
  /\ (code = 429%Z -> spec_kind code msg = CGeminiRateLimitError)
  /\ (code = 404%Z -> Text.contains_ci "model not found" msg = true ->
      spec_kind code msg = CGeminiModelNotFoundError)
  /\ (code = 404%Z -> Text.contains_ci "model not found" msg = false ->
      spec_kind code msg = CGeminiAPIError)
  /\ (code = 400%Z -> Text.contains_ci "context length exceeded" msg = true ->
      spec_kind code msg = CGeminiContextLengthExceededError)
  /\ (code = 400%Z -> Text.contains_ci "context length exceeded" msg = false ->
      spec_kind code msg = CGeminiInvalidRequestError)
  /\ ((500 <= code)%Z -> spec_kind code msg = CGeminiServerError)
  /\ ((code < 500)%Z -> code <> 401%Z -> code <> 429%Z -> code <> 404%Z ->
      code <> 400%Z -> spec_kind code msg = CGeminiAPIError).
Proof.
  unfold spec_kind. repeat split.
  - by intros ->.
  - by intros ->.
  - intros -> H. simpl. by rewrite H.
  - intros -> H. simpl. by rewrite H.
  - intros -> H. simpl. by rewrite H.
  - intros -> H. simpl. by rewrite H.
  - intros H.
    destruct (Z.eqb_spec code 401); [lia|].
    destruct (Z.eqb_spec code 429); [lia|].
    destruct (Z.eqb_spec code 404); [lia|].
    destruct (Z.eqb_spec code 400); [lia|]. simpl.
    by destruct (Z.leb_spec 500 code); [|lia].
  - intros H ? ? ? ?.
    destruct (Z.eqb_spec code 401); [lia|].
    destruct (Z.eqb_spec code 429); [lia|].
    destruct (Z.eqb_spec code 404); [lia|].
    destruct (Z.eqb_spec code 400); [lia|]. simpl.
    by destruct (Z.leb_spec 500 code); [lia|].
Qed.

(** The kinds of the precedence table are kinds of the taxonomy. *)
Lemma spec_kind_taxonomy (code : Z) (msg : string) :
  errors.issubclass (spec_kind code msg) CGeminiError = true.
Proof.
  unfold spec_kind.
  repeat match goal with
         | |- context [if ?b then _ else _] => destruct b
         end; reflexivity.
Qed.

(** C1, on the code.  For every response with a status of 400 or
    above that carries the provider's error envelope with a textual
    message, the block of lines 68-91 raises an error of the taxonomy
    whose kind is the one the precedence table gives: 401
    Authentication, 429 RateLimit, 404 with the model-not-found phrase
    ModelNotFound, 400 with the context-length phrase
    ContextLengthExceeded, any other 400 InvalidRequest, 500 and above
    ServerError, and otherwise the generic API error.  That error does
    not leave [_make_request]: the request is sent, and the first
    [except] clause replaces the error by a TypeError, which is outside
    the taxonomy, has no status code and is of another kind than the
    table gives. *)
Theorem C1_classified_error_becomes_type_error
    (provider : request -> res ClientResponse) (repr : json -> string)
    (self : client.GeminiClient) (method endpoint : string)
    (data : option (gmap string json)) (stream : bool) (log : list request)
    (r : ClientResponse) (msg : string) :
  provider (client.build_request self method endpoint data) = Ok r ->
  (400 <= status r)%Z ->
  provider_message r = Ok (JStr msg) ->
  exists e e',
    client.check_response repr data r = Raise e
    /\ taxonomy e = true
    /\ exn_cls e = spec_kind (status r) msg
    /\ client._make_request provider repr self method endpoint data stream log
       = (Raise e', (log ++ [client.build_request self method endpoint data])%list)
    /\ exn_cls e' = CTypeError
    /\ status_code e' = None
    /\ taxonomy e' = false
    /\ exn_cls e' <> spec_kind (status r) msg.
Proof.
  intros Hp Hst Hmsg.
  destruct (check_response_raises repr data r msg Hst Hmsg) as (e & He & Ht & Hk & _).
  exists e, clause_error. repeat split; try done.
  - by apply make_request_replaces with (r := r) (e := e).
  - intros Heq. pose proof (spec_kind_taxonomy (status r) msg) as Hs.
    rewrite <- Heq in Hs. discriminate Hs.
Qed.

Lemma C1_classified_error_becomes_type_error_witness :
  let msg := "Context Length Exceeded for model" in
  let r := MkResponse 400 (Ok (Fixtures.envelope msg)) [] None in
  let req := client.build_request Fixtures.self0 "POST"
               "gemini-pro:generateContent" None in
  (Fixtures.answers 400 msg req = Ok r
   /\ (400 <= status r)%Z
   /\ provider_message r = Ok (JStr msg))
  /\ exists e e',
       client.check_response Fixtures.repr0 None r = Raise e
       /\ taxonomy e = true
       /\ exn_cls e = CGeminiContextLengthExceededError
       /\ client._make_request (Fixtures.answers 400 msg) Fixtures.repr0
            Fixtures.self0 "POST" "gemini-pro:generateContent" None false []
          = (Raise e', ([] ++ [req])%list)
       /\ exn_cls e' = CTypeError
       /\ status_code e' = None
       /\ taxonomy e' = false
       /\ exn_cls e' <> CGeminiContextLengthExceededError.
Proof.
  intros msg r req.
  assert (H1 : Fixtures.answers 400 msg req = Ok r) by reflexivity.
  assert (H2 : (400 <= status r)%Z) by (simpl; lia).
  assert (H3 : provider_message r = Ok (JStr msg)) by (vm_compute; reflexivity).
  split; [by repeat split|].
  exact (C1_classified_error_becomes_type_error (Fixtures.answers 400 msg)
           Fixtures.repr0 Fixtures.self0 "POST" "gemini-pro:generateContent" None
           false [] r msg H1 H2 H3).
Defined.

(** A response with status 304 is not a 2xx response, and the block of
    lines 68-91 does not classify it: [_make_request] returns it. *)
Example status_304_is_returned :
  let r := MkResponse 304 (Ok (Fixtures.envelope "not modified")) [] None in
  ~ (200 <= status r < 300)%Z
  /\ fst (client._make_request (fun _ => Ok r) Fixtures.repr0 Fixtures.self0
            "GET" "" None false [])
     = Ok r.
Proof. split; [simpl; lia | reflexivity]. Qed.

(** C9, on the code.  For every response with status 404 whose
    provider message does not contain the model-not-found phrase
    (case-insensitively), the block of lines 68-91 raises the generic
    API error with the provider's message and status code 404, which is
    an instance neither of ModelNotFound nor of InvalidRequest.  What
    [_make_request] raises is not that error: the first [except] clause
    replaces it by a TypeError without a status code, which is not an
    API error. *)
Theorem C9_plain_404_becomes_type_error
    (provider : request -> res ClientResponse) (repr : json -> string)
    (self : client.GeminiClient) (method endpoint : string)
    (data : option (gmap string json)) (stream : bool) (log : list request)
    (r : ClientResponse) (msg : string) :
  provider (client.build_request self method endpoint data) = Ok r ->
  status r = 404%Z ->
  provider_message r = Ok (JStr msg) ->
  Text.contains_ci "model not found" msg = false ->
  let e := errors.GeminiAPIError msg (Some 404%Z) in
  client.check_response repr data r = Raise e
  /\ errors.isinstance e CGeminiModelNotFoundError = false
  /\ errors.isinstance e CGeminiInvalidRequestError = false
  /\ exists e',
       client._make_request provider repr self method endpoint data stream log
       = (Raise e', (log ++ [client.build_request self method endpoint data])%list)
       /\ exn_cls e' = CTypeError
       /\ status_code e' = None
       /\ errors.isinstance e' CGeminiAPIError = false.
Proof.
  intros Hp Hst Hmsg Hno e.
  assert (H400 : (400 <= status r)%Z) by lia.
  destruct (check_response_raises repr data r msg H400 Hmsg) as (e' & He & Ht & Hk & Hg).
  assert (Hsk : spec_kind (status r) msg = CGeminiAPIError).
  { destruct (spec_kind_table (status r) msg) as (_ & _ & _ & H & _). by apply H. }
  specialize (Hg Hsk). rewrite Hst in Hg. subst e'.
  repeat split; try done.
  exists clause_error. repeat split.
  by apply make_request_replaces with (r := r) (e := e).
Qed.

Lemma C9_plain_404_becomes_type_error_witness :
  let msg := "Requested entity was not found" in
  let r := MkResponse 404 (Ok (Fixtures.envelope msg)) [] None in
  let req := client.build_request Fixtures.self0 "GET" "" None in
  let e := errors.GeminiAPIError msg (Some 404%Z) in
  (Fixtures.answers 404 msg req = Ok r
   /\ status r = 404%Z
   /\ provider_message r = Ok (JStr msg)
   /\ Text.contains_ci "model not found" msg = false)
  /\ client.check_response Fixtures.repr0 None r = Raise e
  /\ errors.isinstance e CGeminiModelNotFoundError = false
  /\ errors.isinstance e CGeminiInvalidRequestError = false
  /\ exists e',
       client._make_request (Fixtures.answers 404 msg) Fixtures.repr0
         Fixtures.self0 "GET" "" None false []
       = (Raise e', ([] ++ [req])%list)
       /\ exn_cls e' = CTypeError
       /\ status_code e' = None
       /\ errors.isinstance e' CGeminiAPIError = false.
Proof.
  intros msg r req e.
  assert (H1 : Fixtures.answers 404 msg req = Ok r) by reflexivity.
  assert (H2 : status r = 404%Z) by reflexivity.
  assert (H3 : provider_message r = Ok (JStr msg)) by (vm_compute; reflexivity).
  assert (H4 : Text.contains_ci "model not found" msg = false) by (vm_compute; reflexivity).
  split; [by repeat split|].
  exact (C9_plain_404_becomes_type_error (Fixtures.answers 404 msg) Fixtures.repr0
           Fixtures.self0 "GET" "" None false [] r msg H1 H2 H3 H4).
Defined.

(** The envelope is read before the status is looked at: for a
    response whose body the transport cannot read as JSON the block of
    lines 68-91 raises what the read raises, whatever the status, and
    [_make_request] raises the TypeError of its first [except]
    clause. *)
Example unreadable_error_body :
  let unreadable :=
    MkExn CClientError "Attempt to decode JSON with unexpected mimetype: text/html"
          None in
  let r := MkResponse 401 (Raise unreadable) [] None in
  client.check_response Fixtures.repr0 None r = Raise unreadable
  /\ fst (client._make_request (fun _ => Ok r)
            Fixtures.repr0 Fixtures.self0 "GET" "" None false [])
     = Raise clause_error.
Proof. split; reflexivity. Qed.

(** ** The model name in the ModelNotFound error *)

Section ModelName.

Variable repr : json -> string.

(** The payload of a generation request has the two keys "contents"
    and "generationConfig", and no other. *)
Lemma payload_keys (messages : list json) (temperature max_tokens : json)
    (data : gmap string json) :
  client.payload messages temperature max_tokens = Ok data ->
  data !! "model" = None /\ Py.truthy (JDict data) = true.
Proof.
  unfold client.payload, res_bind.
  destruct (client.contents_of messages) as [cs|]; [|discriminate].
  intros [= <-]. split; [by simplify_map_eq|].
  simpl. apply negb_true_iff, bool_decide_eq_false_2.
  apply insert_non_empty.
Qed.

(** For the payload of every generation request, a 404 with the
    model-not-found phrase makes the block of lines 68-91 raise
    ModelNotFound for the name "unknown": line 82 looks the model up in
    the payload, and the payload does not hold it. *)
Lemma check_response_model_not_found
    (messages : list json) (temperature max_tokens : json)
    (data : gmap string json) (r : ClientResponse) (msg : string) :
  client.payload messages temperature max_tokens = Ok data ->
  status r = 404%Z ->
  provider_message r = Ok (JStr msg) ->
  Text.contains_ci "model not found" msg = true ->
  client.check_response repr (Some data) r
  = Raise (errors.GeminiModelNotFoundError "unknown").
Proof.
  intros Hpay Hst Hmsg Hc.
  destruct (payload_keys _ _ _ _ Hpay) as [Hnone Htruthy].
  destruct (provider_message_inv r _ Hmsg) as (ed & ei & Hb & Hei & Hm).
  unfold client.check_response, ok. rewrite Hst. simpl.
  rewrite Hb. simpl. rewrite Hei. simpl. rewrite Hm. simpl.
  unfold Text.contains_ci in Hc. rewrite Hc. simpl.
  simpl in Htruthy. rewrite Htruthy, Hnone. reflexivity.
Qed.

End ModelName.

(** C2, on the code.  For a generation request for the model
    "bad-model" with one user message, answered with status 404 and the
    message "Model not found": the block of lines 68-91 raises
    ModelNotFound, and the message of the error names the model
    "unknown" and does not contain "bad-model".  The streaming call
    sends the request and its generator ends with the TypeError of the
    first [except] clause, whose message does not contain "bad-model"
    either; awaiting the non-streaming call raises a TypeError and
    sends nothing. *)
Theorem C2_model_not_found_names_unknown :
  let e := errors.GeminiModelNotFoundError "unknown" in
  let r := MkResponse 404 (Ok (Fixtures.envelope "Model not found")) [] None in
  let provider := Fixtures.answers 404 "Model not found" in
  exists data,
    client.payload [Fixtures.user_hi] JNull JNull = Ok data
    /\ client.check_response Fixtures.repr0 (Some data) r = Raise e
    /\ exn_cls e = CGeminiModelNotFoundError
    /\ exn_msg e = "Model 'unknown' not found"
    /\ Text.contains "bad-model" (exn_msg e) = false
    /\ client.generate_content provider Fixtures.no_loads Fixtures.repr0
         Fixtures.self0 "bad-model" [Fixtures.user_hi] JNull JNull true []
       = (Ok ([], Some clause_error),
          [client.build_request Fixtures.self0 "POST"
             "bad-model:generateContent?alt=sse" (Some data)])
    /\ Text.contains "bad-model" (exn_msg clause_error) = false
    /\ await_generator (B := json)
         (client.generate_content provider Fixtures.no_loads Fixtures.repr0
            Fixtures.self0 "bad-model" [Fixtures.user_hi] JNull JNull false) []
       = (Raise await_error, []).
Proof.
  intros e r provider.
  eexists. split; [reflexivity|]. split.
  - apply check_response_model_not_found
      with (messages := [Fixtures.user_hi]) (temperature := JNull)
           (max_tokens := JNull) (msg := "Model not found").
    + reflexivity.
    + reflexivity.
    + vm_compute. reflexivity.
    + vm_compute. reflexivity.
  - repeat split.
Qed.

(** ** Normalization of provider responses *)

(** The shape of the dictionary [client.normalized] builds. *)
Lemma normalized_shape (text finish_reason : json) :
  exists choice,
    field "choices" (client.normalized text finish_reason) = Some (JList [choice])
    /\ (field "message" choice ≫= field "role") = Some (JStr "assistant")
    /\ (field "message" choice ≫= field "content") = Some text
    /\ field "finish_reason" choice = Some finish_reason
    /\ (field "usage" (client.normalized text finish_reason) ≫= field "prompt_tokens")
       = Some (JNum 0)
    /\ (field "usage" (client.normalized text finish_reason) ≫= field "completion_tokens")
       = Some (JNum 0)
    /\ (field "usage" (client.normalized text finish_reason) ≫= field "total_tokens")
       = Some (JNum 0).
Proof. eexists. repeat split; reflexivity. Qed.

(** What [_process_response] returns for a response whose first
    candidate is an object with a content object whose first part is an
    object. *)
Lemma process_response_first_part
    (d cand cont part : gmap string json) (cands parts : list json) :
  d !! "candidates" = Some (JList (JDict cand :: cands)) ->
  cand !! "content" = Some (JDict cont) ->
  cont !! "parts" = Some (JList (JDict part :: parts)) ->
  client._process_response (JDict d)
  = Ok (client.normalized (default (JStr "") (part !! "text"))
          (default (JStr "stop") (cand !! "finishReason"))).
Proof.
  intros Hc Hco Hp.
  unfold client._process_response, client.process_body. simpl.
  rewrite Hc. simpl. rewrite Hco. simpl. rewrite Hp. reflexivity.
Qed.

(** C4.  For every provider response with a non-empty candidate list
    whose first candidate has at least one content part carrying a
    text, normalization returns a response with one choice whose
    message has the role "assistant" and, as content, the text of the
    first part unchanged, whose finish reason is the candidate's
    finishReason, or "stop" when the candidate has none, and whose
    three usage counters are zero. *)
Theorem C4_normalization_first_part
    (d cand cont part : gmap string json) (cands parts : list json) (text : json) :
  d !! "candidates" = Some (JList (JDict cand :: cands)) ->
  cand !! "content" = Some (JDict cont) ->
  cont !! "parts" = Some (JList (JDict part :: parts)) ->
  part !! "text" = Some text ->
  exists out choice,
    client._process_response (JDict d) = Ok out
    /\ field "choices" out = Some (JList [choice])
    /\ (field "message" choice ≫= field "role") = Some (JStr "assistant")
    /\ (field "message" choice ≫= field "content") = Some text
    /\ field "finish_reason" choice
       = Some (default (JStr "stop") (cand !! "finishReason"))
    /\ (field "usage" out ≫= field "prompt_tokens") = Some (JNum 0)
    /\ (field "usage" out ≫= field "completion_tokens") = Some (JNum 0)
    /\ (field "usage" out ≫= field "total_tokens") = Some (JNum 0).
Proof.
  intros Hc Hco Hp Ht.
  pose proof (process_response_first_part d cand cont part cands parts Hc Hco Hp) as H.
  rewrite Ht in H. simpl in H.
  destruct (normalized_shape text (default (JStr "stop") (cand !! "finishReason")))
    as (choice & Hs).
  by exists (client.normalized text (default (JStr "stop") (cand !! "finishReason"))),
            choice.
Qed.

Lemma C4_normalization_first_part_witness :
  (Fixtures.hello !! "candidates" = Some (JList (JDict Fixtures.candidate_hello :: []))
   /\ Fixtures.candidate_hello !! "content" = Some (JDict Fixtures.content_hello)
   /\ Fixtures.content_hello !! "parts" = Some (JList (JDict Fixtures.part_hello :: []))
   /\ Fixtures.part_hello !! "text" = Some (JStr "hello"))
  /\ exists out choice,
       client._process_response (JDict Fixtures.hello) = Ok out
       /\ field "choices" out = Some (JList [choice])
       /\ (field "message" choice ≫= field "role") = Some (JStr "assistant")
       /\ (field "message" choice ≫= field "content") = Some (JStr "hello")
       /\ field "finish_reason" choice
          = Some (default (JStr "stop") (Fixtures.candidate_hello !! "finishReason"))
       /\ (field "usage" out ≫= field "prompt_tokens") = Some (JNum 0)
       /\ (field "usage" out ≫= field "completion_tokens") = Some (JNum 0)
       /\ (field "usage" out ≫= field "total_tokens") = Some (JNum 0).
Proof.
  assert (H1 : Fixtures.hello !! "candidates"
               = Some (JList (JDict Fixtures.candidate_hello :: []))) by reflexivity.
  assert (H2 : Fixtures.candidate_hello !! "content"
               = Some (JDict Fixtures.content_hello)) by reflexivity.
  assert (H3 : Fixtures.content_hello !! "parts"
               = Some (JList (JDict Fixtures.part_hello :: []))) by reflexivity.
  assert (H4 : Fixtures.part_hello !! "text" = Some (JStr "hello")) by reflexivity.
  split; [by repeat split|].
  exact (C4_normalization_first_part Fixtures.hello Fixtures.candidate_hello
           Fixtures.content_hello Fixtures.part_hello [] [] (JStr "hello")
           H1 H2 H3 H4).
Defined.

(** The scenario of the specification: the response above normalizes
    to the choice {"message": {"role": "assistant", "content": "hello"},
    "finish_reason": "stop"} with zero usage. *)
Example process_response_hello :
  client._process_response (JDict Fixtures.hello)
  = Ok (client.normalized (JStr "hello") (JStr "stop")).
Proof. reflexivity. Qed.

(** C10.  For every provider response whose first candidate has a
    non-empty list of parts and whose first part has no "text" key,
    normalization succeeds, and the content of the message of its
    choice is the empty string. *)
Theorem C10_missing_text_is_empty_string
    (d cand cont part : gmap string json) (cands parts : list json) :
  d !! "candidates" = Some (JList (JDict cand :: cands)) ->
  cand !! "content" = Some (JDict cont) ->
  cont !! "parts" = Some (JList (JDict part :: parts)) ->
  part !! "text" = None ->
  exists out choice,
    client._process_response (JDict d) = Ok out
    /\ field "choices" out = Some (JList [choice])
    /\ (field "message" choice ≫= field "content") = Some (JStr "").
Proof.
  intros Hc Hco Hp Ht.
  pose proof (process_response_first_part d cand cont part cands parts Hc Hco Hp) as H.
  rewrite Ht in H. simpl in H.
  destruct (normalized_shape (JStr "") (default (JStr "stop") (cand !! "finishReason")))
    as (choice & Hs & _ & Hcontent & _).
  by exists (client.normalized (JStr "") (default (JStr "stop") (cand !! "finishReason"))),
            choice.
Qed.

Lemma C10_missing_text_is_empty_string_witness :
  (Fixtures.blank !! "candidates" = Some (JList (JDict Fixtures.candidate_blank :: []))
   /\ Fixtures.candidate_blank !! "content"
      = Some (JDict {[ "parts" := JList [JDict ∅] ]})
   /\ ({[ "parts" := JList [JDict ∅] ]} : gmap string json) !! "parts"
      = Some (JList (JDict ∅ :: []))
   /\ (∅ : gmap string json) !! "text" = None)
  /\ exists out choice,
       client._process_response (JDict Fixtures.blank) = Ok out
       /\ field "choices" out = Some (JList [choice])
       /\ (field "message" choice ≫= field "content") = Some (JStr "").
Proof.
  assert (H1 : Fixtures.blank !! "candidates"
               = Some (JList (JDict Fixtures.candidate_blank :: []))) by reflexivity.
  assert (H2 : Fixtures.candidate_blank !! "content"
               = Some (JDict {[ "parts" := JList [JDict ∅] ]})) by reflexivity.
  assert (H3 : ({[ "parts" := JList [JDict ∅] ]} : gmap string json) !! "parts"
               = Some (JList (JDict ∅ :: []))) by reflexivity.
  assert (H4 : (∅ : gmap string json) !! "text" = None) by reflexivity.
  split; [by repeat split|].
  exact (C10_missing_text_is_empty_string Fixtures.blank Fixtures.candidate_blank
           {[ "parts" := JList [JDict ∅] ]} ∅ [] [] H1 H2 H3 H4).
Defined.

(** ** Empty responses *)

(** C6, as the code has it.  For every provider response with no
    "candidates" or an empty list of them, normalization raises the
    base error of the taxonomy, [GeminiError], without a status code
    and with the message "No response from the model"; for every
    response whose first candidate has no content parts it raises the
    same kind of error with the message "Empty response from the
    model".  The two messages contain the phrases of the specification
    when letter case is ignored. *)
Theorem C6_empty_responses_raise_base_error (d : gmap string json) :
  ((d !! "candidates" = None \/ d !! "candidates" = Some (JList [])) ->
   client._process_response (JDict d)
   = Raise (errors.GeminiError "No response from the model" None))
  /\ (forall cand cands,
        d !! "candidates" = Some (JList (JDict cand :: cands)) ->
        no_parts cand ->
        client._process_response (JDict d)
        = Raise (errors.GeminiError "Empty response from the model" None))
  /\ taxonomy (errors.GeminiError "No response from the model" None) = true
  /\ taxonomy (errors.GeminiError "Empty response from the model" None) = true
  /\ Text.contains_ci "no response from the model" "No response from the model" = true
  /\ Text.contains_ci "empty response from the model" "Empty response from the model"
     = true.
Proof.
  split; [|split; [|by repeat split]].
  - intros [H|H]; unfold client._process_response, client.process_body; simpl;
      by rewrite H.
  - intros cand cands Hc Hnp.
    unfold client._process_response, client.process_body. simpl.
    rewrite Hc. simpl.
    destruct Hnp as [Hco|(cont & Hco & [Hp|Hp])]; rewrite Hco; simpl.
    + reflexivity.
    + by rewrite Hp.
    + by rewrite Hp.
Qed.

Lemma C6_empty_responses_raise_base_error_witness :
  let d0 : gmap string json := {[ "candidates" := JList [] ]} in
  let cand : gmap string json := {[ "content" := JDict ∅ ]} in
  let d1 : gmap string json := {[ "candidates" := JList [JDict cand] ]} in
  ((d0 !! "candidates" = None \/ d0 !! "candidates" = Some (JList []))
   /\ d1 !! "candidates" = Some (JList (JDict cand :: []))
   /\ no_parts cand)
  /\ client._process_response (JDict d0)
     = Raise (errors.GeminiError "No response from the model" None)
  /\ client._process_response (JDict d1)
     = Raise (errors.GeminiError "Empty response from the model" None).
Proof.
  intros d0 cand d1.
  assert (H0 : d0 !! "candidates" = None \/ d0 !! "candidates" = Some (JList []))
    by (right; reflexivity).
  assert (H1 : d1 !! "candidates" = Some (JList (JDict cand :: []))) by reflexivity.
  assert (H2 : no_parts cand).
  { right. exists ∅. split; [reflexivity | left; reflexivity]. }
  split; [by repeat split|]. split.
  - exact (proj1 (C6_empty_responses_raise_base_error d0) H0).
  - exact (proj1 (proj2 (C6_empty_responses_raise_base_error d1)) cand [] H1 H2).
Defined.

(** C6, as the specification words it, fails: for the response
    {"candidates": []} the error raised is not of the InvalidRequest
    family.  Its class is the base class [GeminiError], of which
    [GeminiInvalidRequestError] is a subclass and not the reverse, and
    it carries no status code. *)
Lemma C6_counterexample_not_invalid_request :
  exists e,
    client._process_response (JDict {[ "candidates" := JList [] ]}) = Raise e
    /\ exn_cls e = CGeminiError
    /\ status_code e = None
    /\ errors.isinstance e CGeminiInvalidRequestError = false
    /\ invalid_request_family e = false.
Proof. eexists. repeat split. Qed.

(** ** Construction of the client *)

(** C7.  For every construction of the client in which no API key is
    supplied (none, or the empty string) and the configuration holds
    none either, the constructor raises an error of the taxonomy, and
    the log of outbound requests is as it was: nothing has been sent. *)
Theorem C7_no_key_fails_before_any_request
    (e : env.t) (api_key api_base_url : option string) (timeout : option Z)
    (log : list request) :
  (api_key = None \/ api_key = Some "") ->
  (env.GEMINI_API_KEY e = None \/ env.GEMINI_API_KEY e = Some "") ->
  client.__init__ e api_key api_base_url timeout log
  = (Raise (errors.GeminiError "Gemini API key is required" None), log)
  /\ taxonomy (errors.GeminiError "Gemini API key is required" None) = true.
Proof.
  intros Hk He. split; [|reflexivity].
  unfold client.__init__.
  by destruct Hk as [-> | ->], He as [-> | ->].
Qed.

Lemma C7_no_key_fails_before_any_request_witness :
  let e := env.Mk (Some "") (Some "https://provider.test/v1beta/models") None true in
  (((None : option string) = None \/ (None : option string) = Some "")
   /\ (env.GEMINI_API_KEY e = None \/ env.GEMINI_API_KEY e = Some ""))
  /\ client.__init__ e None None None []
     = (Raise (errors.GeminiError "Gemini API key is required" None), [])
  /\ taxonomy (errors.GeminiError "Gemini API key is required" None) = true.
Proof.
  intros e.
  assert (H1 : (None : option string) = None \/ (None : option string) = Some "")
    by (left; reflexivity).
  assert (H2 : env.GEMINI_API_KEY e = None \/ env.GEMINI_API_KEY e = Some "")
    by (right; reflexivity).
  split; [by split|].
  exact (C7_no_key_fails_before_any_request e None None None [] H1 H2).
Defined.

(** With a key, the constructor keeps what it resolved, and sends
    nothing either. *)
Lemma init_with_key (e : env.t) (k : string) (api_base_url : option string)
    (timeout : option Z) (log : list request) :
  k <> "" ->
  exists c, client.__init__ e (Some k) api_base_url timeout log = (Ok c, log)
            /\ client.api_key c = Some k.
Proof.
  intros Hk. unfold client.__init__. simpl.
  destruct (String.eqb_spec k ""); [done|]. simpl.
  destruct (String.eqb_spec k ""); [done|]. simpl.
  by eexists.
Qed.

(** ** Configuration updates and the requests of the client *)

Arguments client.generate_content : simpl never.
Arguments client.list_models : simpl never.

Section Requests.

Variable provider : request -> res ClientResponse.
Variable json_loads : string -> res json.
Variable repr : json -> string.
Variable hash_str : list json -> string.

Lemma build_request_carries (c : client.GeminiClient) (method endpoint : string)
    (data : option (gmap string json)) :
  carries_config_of c (client.build_request c method endpoint data).
Proof.
  split; [by simplify_map_eq | by exists endpoint].
Qed.

Lemma sent_by_carries (c : client.GeminiClient) (log log' : list request) (req : request) :
  sent_by c log log' -> req ∈ log' -> req ∈ log \/ carries_config_of c req.
Proof.
  intros [-> | (m & ep & d & ->)] Hin; [by left|].
  apply elem_of_app in Hin as [Hin|Hin]; [by left|].
  apply list_elem_of_singleton in Hin as ->. right. apply build_request_carries.
Qed.

Lemma make_request_log (c : client.GeminiClient) (method endpoint : string)
    (data : option (gmap string json)) (stream : bool) (log : list request) :
  snd (client._make_request provider repr c method endpoint data stream log)
  = (log ++ [client.build_request c method endpoint data])%list.
Proof. reflexivity. Qed.

Lemma list_models_log (c : client.GeminiClient) (log : list request) :
  sent_by c log (snd (client.list_models provider repr c log)).
Proof.
  right. exists "GET", "", None.
  unfold client.list_models, bind, lift.
  pose proof (make_request_log c "GET" "" None false log) as H.
  destruct (client._make_request provider repr c "GET" "" None false log)
    as [[resp|e] log'] eqn:E; simpl in *; [|done].
  by destruct (body resp) as [data|]; simpl.
Qed.

Lemma post_content_log (c : client.GeminiClient) (model : string)
    (messages : list json) (temperature max_tokens : json) (stream : bool)
    (log : list request) :
  sent_by c log
    (snd (client.post_content provider repr c model messages temperature
            max_tokens stream log)).
Proof.
  unfold client.post_content, bind, lift.
  destruct (client.payload messages temperature max_tokens) as [data|e];
    [|by left].
  right. eexists _, _, _. apply make_request_log.
Qed.

Lemma generate_content_log (c : client.GeminiClient) (model : string)
    (messages : list json) (temperature max_tokens : json) (stream : bool)
    (log : list request) :
  sent_by c log
    (snd (client.generate_content provider json_loads repr c model messages
            temperature max_tokens stream log)).
Proof.
  pose proof (post_content_log c model messages temperature max_tokens stream log)
    as H.
  unfold client.generate_content.
  destruct (client.post_content provider repr c model messages temperature
              max_tokens stream log) as [[resp|e] log']; simpl in *; [|done].
  destruct stream; [done|].
  by destruct (res_bind (body resp) _).
Qed.

Lemma to_http_log {A} (c : M A) (log : list request) :
  snd (router.to_http c log) = snd (c log).
Proof.
  unfold router.to_http. destruct (c log) as [[a|e] log']; [done|].
  by destruct (errors.isinstance e CGeminiError).
Qed.

Lemma get_models_log (st : router.State) (log : list request) :
  sent_by (router.gemini_client st) log
    (snd (router.get_models provider repr st log)).
Proof.
  unfold router.get_models.
  destruct (router.ENABLE_GEMINI_API st); simpl; [|by left].
  rewrite to_http_log. unfold bind, lift.
  pose proof (list_models_log (router.gemini_client st) log) as H.
  destruct (client.list_models provider repr (router.gemini_client st) log)
    as [[models|e] log']; simpl in *; [|done].
  destruct (router.iterate models) as [ms|]; simpl; [|done].
  by destruct (router.to_models ms).
Qed.

Lemma chat_completions_log (chat_request : router.GeminiChatRequest)
    (st : router.State) (log : list request) :
  sent_by (router.gemini_client st) log
    (snd (router.chat_completions provider json_loads repr hash_str
            chat_request st log)).
Proof.
  unfold router.chat_completions.
  destruct (router.ENABLE_GEMINI_API st); simpl; [|by left].
  destruct (negb _); [by left|].
  rewrite to_http_log.
  destruct (default false (router.stream chat_request)); unfold bind, lift, ret.
  - match goal with
    | |- context [client.generate_content ?p ?j ?r ?c ?m ?ms ?t ?mt true log] =>
        pose proof (generate_content_log c m ms t mt true log) as H;
        destruct (client.generate_content p j r c m ms t mt true log)
          as [[g|e] log']; simpl in *; [|done]
    end.
    by destruct (router.generate g).
  - by left.
Qed.

End Requests.

(** After [update_config] the three global names of the router hold
    the new values, and the client is the one that was built when the
    module was loaded.  The enabled flag and the presence of a key are
    read from the globals when a call is made: with the flag unset,
    model listing and chat completion fail with status 400 and send
    nothing, and so does chat completion with an empty key.  Every
    request that a model-listing or chat-completion call sends carries
    the key and the base URL that the client captured when it was
    constructed. *)
Lemma update_config_and_captured_credentials
    (provider : request -> res ClientResponse) (json_loads : string -> res json)
    (repr : json -> string) (hash_str : list json -> string)
    (config : router.GeminiConfig) (st : router.State)
    (chat_request : router.GeminiChatRequest) (log : list request) :
  let st' := snd (router.update_config config st) in
  let disabled := router.HTTPException 400 "Gemini API is not enabled" in
  (router.GEMINI_API_KEY st' = Some (router.api_key config)
   /\ router.GEMINI_API_BASE_URL st' = Some (router.api_base_url config)
   /\ router.ENABLE_GEMINI_API st' = router.enabled config
   /\ router.gemini_client st' = router.gemini_client st)
  /\ (router.enabled config = false ->
      router.get_models provider repr st' log = (Raise disabled, log)
      /\ router.chat_completions provider json_loads repr hash_str chat_request st' log
         = (Raise disabled, log))
  /\ (router.enabled config = true -> router.api_key config = "" ->
      router.chat_completions provider json_loads repr hash_str chat_request st' log
      = (Raise (router.HTTPException 400 "Gemini API key is not configured"), log))
  /\ (forall req,
        req ∈ snd (router.get_models provider repr st' log) ->
        req ∈ log \/ carries_config_of (router.gemini_client st) req)
  /\ (forall req,
        req ∈ snd (router.chat_completions provider json_loads repr hash_str
                     chat_request st' log) ->
        req ∈ log \/ carries_config_of (router.gemini_client st) req).
Proof.
  intros st' disabled. split; [by repeat split|]. split; [|split; [|split]].
  - intros Hoff. unfold router.get_models, router.chat_completions.
    subst st'. simpl. by rewrite Hoff.
  - intros Hon Hempty. unfold router.chat_completions.
    subst st'. simpl. by rewrite Hon, Hempty.
  - intros req. apply sent_by_carries.
    apply (get_models_log provider repr st' log).
  - intros req. apply sent_by_carries.
    apply (chat_completions_log provider json_loads repr hash_str chat_request st' log).
Qed.

(** C3, on the code.  The client is built from an environment with
    the key "key-1", as line 17 of the router builds it, and the
    globals of the router hold the values of that environment.  The
    configuration is then updated to the key "key-2" and another base
    URL, and the globals hold the new values.  The model listing made
    after the update sends one request, with the key "key-1" and the
    first URL, and so does the streaming chat completion: the calls do
    not use the updated key and base URL. *)
Theorem C3_calls_after_update_use_stale_credentials :
  let config := router.MkConfig "key-2" "https://other.test/v1" true in
  exists c req req',
    client.__init__ Fixtures.env0 None None None [] = (Ok c, [])
    /\ let st := router.MkState (env.GEMINI_API_KEY Fixtures.env0)
                   (env.GEMINI_API_BASE_URL Fixtures.env0)
                   (env.ENABLE_GEMINI_API Fixtures.env0) c in
       let st' := snd (router.update_config config st) in
       router.GEMINI_API_KEY st' = Some "key-2"
       /\ router.GEMINI_API_BASE_URL st' = Some "https://other.test/v1"
       /\ snd (router.get_models Fixtures.lists_nothing Fixtures.repr0 st' [])
          = [req]
       /\ req_headers req !! "x-goog-api-key" = Some "key-1"
       /\ req_headers req !! "x-goog-api-key" <> Some (router.api_key config)
       /\ req_url req = "https://provider.test/v1beta/models/"
       /\ snd (router.chat_completions (Fixtures.streams [] None)
                 Fixtures.stream_loads Fixtures.repr0 Fixtures.hash0
                 (Fixtures.chat_hi true) st' [])
          = [req']
       /\ req_headers req' !! "x-goog-api-key" = Some "key-1"
       /\ req_headers req' !! "x-goog-api-key" <> Some (router.api_key config)
       /\ req_url req'
          = "https://provider.test/v1beta/models/gemini-pro:generateContent?alt=sse".
Proof.
  intros config. eexists _, _, _.
  split; [reflexivity|]. simpl.
  split; [reflexivity|]. split; [reflexivity|]. split; [reflexivity|].
  split; [reflexivity|]. split; [vm_compute; discriminate|].
  split; [reflexivity|]. split; [reflexivity|]. split; [reflexivity|].
  split; [vm_compute; discriminate | reflexivity].
Qed.

(** ** Streaming *)

Section Streaming.

Variable provider : request -> res ClientResponse.
Variable json_loads : string -> res json.
Variable repr : json -> string.
Variable hash_str : list json -> string.

(** A line that [json.loads] rejects is skipped: the run continues
    with the next line. *)
Lemma stream_chunks_skips (line : string) (rest : list string)
    (stopped : option exn) (e : exn) :
  json_loads line = Raise e ->
  exn_cls e = CJSONDecodeError ->
  client.stream_chunks json_loads (line :: rest) stopped
  = client.stream_chunks json_loads rest stopped.
Proof.
  intros Hl Hc. simpl. destruct (String.eqb line ""); [done|].
  rewrite Hl. simpl.
  by_class Hc.
Qed.

(** The loop of [generate()] stops at the first chunk: [json.dumps]
    raises before a data line is built. *)
Lemma data_events_cases (chunks : list json) :
  router.data_events chunks
  = match chunks with
    | [] => ([], None)
    | _ :: _ => ([], Some dumps_error)
    end.
Proof. by destruct chunks. Qed.

(** The runs of [generate()].  When the generator of the client ends
    normally without a chunk, the end marker is the one event.  In
    every other case no event is yielded: a chunk, or an error of the
    taxonomy, leads to [json.dumps], whose NameError leaves the
    generator; any other exception leaves it as it is. *)
Lemma generate_cases (chunks : list json) (stopped : option exn) :
  router.generate (chunks, stopped)
  = match chunks, stopped with
    | [], None => ([router.DoneEvent], None)
    | [], Some e => ([], Some (if taxonomy e then dumps_error else e))
    | _ :: _, _ => ([], Some dumps_error)
    end.
Proof.
  unfold router.generate. rewrite data_events_cases.
  destruct chunks as [|c cs]; [|reflexivity].
  destruct stopped as [e|]; [|reflexivity].
  unfold taxonomy. by destruct (errors.isinstance e CGeminiError).
Qed.

(** What aborts [generate()] is no error of the taxonomy. *)
Lemma generate_aborts (g : list json * option exn) :
  g = ([], None) /\ router.generate g = ([router.DoneEvent], None)
  \/ g <> ([], None)
     /\ exists e, router.generate g = ([], Some e) /\ taxonomy e = false.
Proof.
  destruct g as [chunks stopped]. rewrite generate_cases.
  destruct chunks as [|c cs]; [destruct stopped as [e|]|].
  - right. split; [done|]. eexists. split; [reflexivity|].
    by destruct (taxonomy e) eqn:E.
  - by left.
  - right. split; [done|]. by exists dumps_error.
Qed.

(** The body of the client's generator always runs to an end. *)
Lemma generate_content_runs (self : client.GeminiClient) (model : string)
    (messages : list json) (temperature max_tokens : json) (stream : bool)
    (log : list request) :
  exists run log',
    client.generate_content provider json_loads repr self model messages
      temperature max_tokens stream log
    = (Ok run, log').
Proof.
  unfold client.generate_content.
  destruct (client.post_content provider repr self model messages temperature
              max_tokens stream log) as [[resp|e] log']; [|by eexists _, _].
  destruct stream; [by eexists _, _|].
  destruct (res_bind (body resp) _); by eexists _, _.
Qed.

(** With the API enabled and a key configured, a streaming chat
    completion returns the streaming response whose events are the
    run of [generate()] over the run of the client's generator. *)
Lemma chat_completions_streaming (chat_request : router.GeminiChatRequest)
    (st : router.State) (k : string) (log : list request) :
  router.ENABLE_GEMINI_API st = true ->
  router.GEMINI_API_KEY st = Some k -> k <> "" ->
  router.stream chat_request = Some true ->
  exists run log',
    client.generate_content provider json_loads repr (router.gemini_client st)
      (router.model chat_request) (message_dicts (router.messages chat_request))
      (router.temperature chat_request) (router.max_tokens chat_request) true log
    = (Ok run, log')
    /\ router.chat_completions provider json_loads repr hash_str chat_request st log
       = (Ok (router.StreamingResponse (router.generate run).1
                                       (router.generate run).2), log').
Proof.
  intros Hon Hk Hne Hs.
  destruct (generate_content_runs (router.gemini_client st)
              (router.model chat_request)
              (message_dicts (router.messages chat_request))
              (router.temperature chat_request) (router.max_tokens chat_request)
              true log) as (run & log' & Hrun).
  exists run, log'. split; [exact Hrun|].
  unfold router.chat_completions.
  rewrite Hon, Hk, Hs. simpl.
  destruct (String.eqb_spec k "") as [Hempty|_]; [done|]. simpl.
  unfold router.to_http, bind, ret. fold (message_dicts (router.messages chat_request)).
  rewrite Hrun. by destruct (router.generate run).
Qed.

End Streaming.

(** C5, on the code.  Three streaming chat completions that end
    without a terminal marker: the consumer receives no event at all,
    and the stream is aborted by an exception.  In the first the
    provider stream holds a fragment line, a line that is not JSON and
    the line "[]": the client yields the fragment, and line 130 of the
    router raises a NameError on [json.dumps], which [generate()] does
    not catch.  In the second the stream fails in the middle with an
    error of the taxonomy (the line "{}" has no candidates): the
    [except] branch of [generate()] is entered and raises the same
    NameError on line 135, so that neither the error event nor the end
    marker is yielded.  In the third the line "[]" parses as a list,
    on which [_process_response] raises AttributeError, which neither
    the client nor [generate()] catches. *)
Theorem C5_stream_ends_without_terminal :
  let chat lines :=
    fst (router.chat_completions (Fixtures.streams lines None)
           Fixtures.stream_loads Fixtures.repr0 Fixtures.hash0
           (Fixtures.chat_hi true) Fixtures.st0 []) in
  chat [Fixtures.hello_line; ": keep-alive"; "[]"]
  = Ok (router.StreamingResponse [] (Some dumps_error))
  /\ (client.stream_chunks Fixtures.stream_loads ["{}"] None
      = ([], Some (errors.GeminiError "No response from the model" None))
      /\ chat ["{}"] = Ok (router.StreamingResponse [] (Some dumps_error)))
  /\ (exists e,
        chat ["[]"] = Ok (router.StreamingResponse [] (Some e))
        /\ exn_cls e = CAttributeError
        /\ taxonomy e = false)
  /\ exn_cls dumps_error = CNameError
  /\ taxonomy dumps_error = false
  /\ last ([] : list router.sse_event) <> Some router.DoneEvent.
Proof.
  intros chat. split; [|split; [|split]].
  - vm_compute. reflexivity.
  - split; vm_compute; reflexivity.
  - eexists. split; [vm_compute; reflexivity | by split].
  - by repeat split.
Qed.

(** A provider stream without a fragment is the one stream that ends
    with the end marker. *)
Example empty_stream_then_done :
  fst (router.chat_completions (Fixtures.streams [": keep-alive"] None)
         Fixtures.stream_loads Fixtures.repr0 Fixtures.hash0
         (Fixtures.chat_hi true) Fixtures.st0 [])
  = Ok (router.StreamingResponse [router.DoneEvent] None).
Proof. vm_compute. reflexivity. Qed.

(** ** Exceptions outside the taxonomy *)

(** C8, on the code.  [list_models] against a provider that answers
    with status 200 and the body "[]" fails with AttributeError, and
    against a provider whose body the transport cannot read as JSON it
    fails with the exception of the transport itself: line 103 reads
    the body outside the [try] of [_make_request].  Neither exception
    is an error of the taxonomy. *)
Theorem C8_list_models_raises_outside_taxonomy :
  let unreadable :=
    MkExn CClientError "Attempt to decode JSON with unexpected mimetype: text/html"
          None in
  (exists e,
     fst (client.list_models
            (fun _ => Ok (MkResponse 200 (Ok (JList [])) [] None))
            Fixtures.repr0 Fixtures.self0 [])
     = Raise e
     /\ exn_cls e = CAttributeError
     /\ taxonomy e = false)
  /\ fst (client.list_models
            (fun _ => Ok (MkResponse 200 (Raise unreadable) [] None))
            Fixtures.repr0 Fixtures.self0 [])
     = Raise unreadable
  /\ taxonomy unreadable = false.
Proof.
  intros unreadable. split; [|by split].
  eexists. by repeat split.
Qed.

(* ===================================================================== *)
(** * Further properties of the code *)
(* ===================================================================== *)

(** ** Status codes and messages of the classified errors *)

Section ClassifiedErrors.

Variable provider : request -> res ClientResponse.
Variable repr : json -> string.
(** The status code and the message of the error that the block of
    lines 68-92 raises. *)
Lemma check_response_code_and_message (data : option (gmap string json))
    (r : ClientResponse) (msg : string) :
  (400 <= status r)%Z ->
  provider_message r = Ok (JStr msg) ->
  exists e,
    client.check_response repr data r = Raise e
    /\ taxonomy e = true
    /\ status_code e = Some (Z.min (status r) 500)
    /\ (status r <> 401%Z ->
        (status r = 404%Z -> Text.contains_ci "model not found" msg = false) ->
        exn_msg e = msg).
Proof.
  intros Hst Hmsg.
  destruct (provider_message_inv r _ Hmsg) as (ed & ei & Hb & Hei & Hm).
  unfold client.check_response, ok, Text.contains_ci.
  replace (status r <? 400)%Z with false by (symmetry; apply Z.ltb_ge; lia).
  simpl. rewrite Hb. simpl. rewrite Hei. simpl. rewrite Hm. simpl.
  destruct (Z.eqb_spec (status r) 401) as [E401|E401].
  { eexists. repeat split; [by rewrite E401 | done]. }
  destruct (Z.eqb_spec (status r) 429) as [E429|E429].
  { eexists. repeat split. by rewrite E429. }
  destruct (Z.eqb_spec (status r) 404) as [E404|E404]; simpl.
  - destruct (Text.contains "model not found" (Text.lower msg)) eqn:Ec; simpl.
    + destruct data as [d|]; simpl;
        [destruct (negb (bool_decide (d = ∅))); simpl|];
        (eexists; repeat split; [by rewrite E404 | intros _ H; by specialize (H E404)]).
    + rewrite E404. simpl. eexists. by repeat split.
  - destruct (Z.eqb_spec (status r) 400) as [E400|E400]; simpl.
    + destruct (Text.contains "context length exceeded" (Text.lower msg));
        eexists; (repeat split; [by rewrite E400]).
    + destruct (Z.leb_spec 500 (status r)).
      * eexists. repeat split. simpl. f_equal. lia.
      * eexists. repeat split. simpl. f_equal. lia.
Qed.

End ClassifiedErrors.


(** X1.  The status code of the error that the block of lines 68-91
    raises (before the [except] clauses of [_make_request] see it) is
    the HTTP status of the response, capped at 500: every status of
    500 or above gives an error with the status code 500, whatever the
    provider answered. *)
Theorem X1_status_code_is_status_capped_at_500
    (repr : json -> string) (data : option (gmap string json))
    (r : ClientResponse) (msg : string) :
  (400 <= status r)%Z ->
  provider_message r = Ok (JStr msg) ->
  exists e,
    client.check_response repr data r = Raise e
    /\ status_code e = Some (Z.min (status r) 500).
Proof.
  intros Hst Hmsg.
  destruct (check_response_code_and_message repr data r msg Hst Hmsg)
    as (e & He & Ht & Hc & _).
  by exists e.
Qed.

Lemma X1_status_code_is_status_capped_at_500_witness :
  let msg := "The service is currently unavailable" in
  let r := MkResponse 503 (Ok (Fixtures.envelope msg)) [] None in
  ((400 <= status r)%Z
   /\ provider_message r = Ok (JStr msg))
  /\ exists e,
       client.check_response Fixtures.repr0 None r = Raise e
       /\ status_code e = Some 500%Z.
Proof.
  intros msg r.
  assert (H2 : (400 <= status r)%Z) by (simpl; lia).
  assert (H3 : provider_message r = Ok (JStr msg)) by (vm_compute; reflexivity).
  split; [by split|].
  exact (X1_status_code_is_status_capped_at_500 Fixtures.repr0 None r msg H2 H3).
Defined.

(** X2.  The message of the error that the block of lines 68-91
    raises is the provider's message, unchanged, for every status but
    401 and every response but the 404 with the model-not-found
    phrase. *)
Theorem X2_provider_message_is_kept
    (repr : json -> string) (data : option (gmap string json))
    (r : ClientResponse) (msg : string) :
  (400 <= status r)%Z ->
  provider_message r = Ok (JStr msg) ->
  status r <> 401%Z ->
  (status r = 404%Z -> Text.contains_ci "model not found" msg = false) ->
  exists e,
    client.check_response repr data r = Raise e
    /\ exn_msg e = msg.
Proof.
  intros Hst Hmsg H401 H404.
  destruct (check_response_code_and_message repr data r msg Hst Hmsg)
    as (e & He & Ht & _ & Hm).
  exists e. split; [done | by apply Hm].
Qed.

Lemma X2_provider_message_is_kept_witness :
  let msg := "quota exceeded" in
  let r := MkResponse 429 (Ok (Fixtures.envelope msg)) [] None in
  ((400 <= status r)%Z
   /\ provider_message r = Ok (JStr msg)
   /\ status r <> 401%Z
   /\ (status r = 404%Z -> Text.contains_ci "model not found" msg = false))
  /\ exists e,
       client.check_response Fixtures.repr0 None r = Raise e
       /\ exn_msg e = "quota exceeded".
Proof.
  intros msg r.
  assert (H2 : (400 <= status r)%Z) by (simpl; lia).
  assert (H3 : provider_message r = Ok (JStr msg)) by (vm_compute; reflexivity).
  assert (H4 : status r <> 401%Z) by (simpl; lia).
  assert (H5 : status r = 404%Z -> Text.contains_ci "model not found" msg = false)
    by (simpl; lia).
  split; [by repeat split|].
  exact (X2_provider_message_is_kept Fixtures.repr0 None r msg H2 H3 H4 H5).
Defined.

(** X3.  When the body of an error response is an object without an
    "error" key, or whose "error" object has no "message", the error
    that the block of lines 68-91 raises carries the message
    "Unknown error", for every status of 400 or above but 401. *)
Theorem X3_missing_message_is_unknown_error
    (repr : json -> string) (data : option (gmap string json))
    (r : ClientResponse) (d : gmap string json) :
  (400 <= status r)%Z ->
  status r <> 401%Z ->
  body r = Ok (JDict d) ->
  (d !! "error" = None
   \/ exists info, d !! "error" = Some (JDict info) /\ info !! "message" = None) ->
  exists e,
    client.check_response repr data r = Raise e
    /\ taxonomy e = true
    /\ exn_msg e = "Unknown error".
Proof.
  intros Hst H401 Hb Hd.
  assert (Hmsg : provider_message r = Ok (JStr "Unknown error")).
  { unfold provider_message. rewrite Hb. simpl.
    destruct Hd as [-> | (info & -> & Hi)]; simpl; [done | by rewrite Hi]. }
  destruct (check_response_code_and_message repr data r _ Hst Hmsg)
    as (e & He & Ht & _ & Hm).
  exists e. split; [done|]. split; [done | by apply Hm].
Qed.

Lemma X3_missing_message_is_unknown_error_witness :
  let r := MkResponse 400 (Ok (JDict ∅)) [] None in
  ((400 <= status r)%Z
   /\ status r <> 401%Z
   /\ body r = Ok (JDict ∅)
   /\ ((∅ : gmap string json) !! "error" = None
       \/ exists info, (∅ : gmap string json) !! "error" = Some (JDict info)
                       /\ info !! "message" = None))
  /\ exists e,
       client.check_response Fixtures.repr0 None r = Raise e
       /\ taxonomy e = true
       /\ exn_msg e = "Unknown error".
Proof.
  intros r.
  assert (H2 : (400 <= status r)%Z) by (simpl; lia).
  assert (H3 : status r <> 401%Z) by (simpl; lia).
  assert (H4 : body r = Ok (JDict ∅)) by reflexivity.
  assert (H5 : (∅ : gmap string json) !! "error" = None
               \/ exists info, (∅ : gmap string json) !! "error" = Some (JDict info)
                               /\ info !! "message" = None)
    by (left; reflexivity).
  split; [by repeat split|].
  exact (X3_missing_message_is_unknown_error Fixtures.repr0 None r ∅ H2 H3 H4 H5).
Defined.

(** X4.  A response with a status below 400 is returned as it is, after
    the one request: its body is not read, whatever it holds. *)
Theorem X4_status_below_400_is_returned
    (provider : request -> res ClientResponse) (repr : json -> string)
    (self : client.GeminiClient) (method endpoint : string)
    (data : option (gmap string json)) (stream : bool) (log : list request)
    (r : ClientResponse) :
  provider (client.build_request self method endpoint data) = Ok r ->
  (status r < 400)%Z ->
  client._make_request provider repr self method endpoint data stream log
  = (Ok r, (log ++ [client.build_request self method endpoint data])%list).
Proof.
  intros Hp Hst. unfold client._make_request. rewrite Hp. simpl.
  unfold client.check_response, ok.
  by replace (status r <? 400)%Z with true by (symmetry; apply Z.ltb_lt; lia).
Qed.

Lemma X4_status_below_400_is_returned_witness :
  let unreadable := MkExn CJSONDecodeError "Expecting value" None in
  let r := MkResponse 302 (Raise unreadable) [] None in
  let req := client.build_request Fixtures.self0 "GET" "" None in
  ((fun _ => Ok r) req = Ok r /\ (status r < 400)%Z)
  /\ client._make_request (fun _ => Ok r) Fixtures.repr0 Fixtures.self0
       "GET" "" None false []
     = (Ok r, ([] ++ [req])%list).
Proof.
  intros unreadable r req.
  assert (H1 : (fun _ : request => Ok r) req = Ok r) by reflexivity.
  assert (H2 : (status r < 400)%Z) by (simpl; lia).
  split; [by split|].
  exact (X4_status_below_400_is_returned (fun _ => Ok r) Fixtures.repr0
           Fixtures.self0 "GET" "" None false [] r H1 H2).
Defined.

(** X5.  The wording of the provider's message matters for the
    statuses 400 and 404 only: for any other status of 400 or above,
    the block of lines 68-91 raises, for two responses with the same
    status, errors of the same class and status code, whatever their
    messages say. *)
Theorem X5_message_matters_for_400_and_404_only
    (repr : json -> string) (data : option (gmap string json))
    (r1 r2 : ClientResponse) (m1 m2 : string) :
  provider_message r1 = Ok (JStr m1) ->
  provider_message r2 = Ok (JStr m2) ->
  status r1 = status r2 ->
  (400 < status r1)%Z ->
  status r1 <> 404%Z ->
  exists e1 e2,
    client.check_response repr data r1 = Raise e1
    /\ client.check_response repr data r2 = Raise e2
    /\ exn_cls e1 = exn_cls e2
    /\ status_code e1 = status_code e2.
Proof.
  intros Hm1 Hm2 Heq Hst H404.
  assert (H1 : (400 <= status r1)%Z) by lia.
  assert (H2 : (400 <= status r2)%Z) by lia.
  destruct (check_response_raises repr data r1 m1 H1 Hm1) as (e1 & He1 & Ht1 & Hk1 & _).
  destruct (check_response_raises repr data r2 m2 H2 Hm2) as (e2 & He2 & Ht2 & Hk2 & _).
  destruct (check_response_code_and_message repr data r1 m1 H1 Hm1)
    as (e1' & He1' & _ & Hc1 & _).
  destruct (check_response_code_and_message repr data r2 m2 H2 Hm2)
    as (e2' & He2' & _ & Hc2 & _).
  rewrite He1 in He1'. injection He1' as <-.
  rewrite He2 in He2'. injection He2' as <-.
  exists e1, e2.
  repeat split; [done | done | | by rewrite Hc1, Hc2, Heq].
  rewrite Hk1, Hk2, <- Heq. unfold spec_kind.
  destruct (Z.eqb_spec (status r1) 404); [done|].
  destruct (Z.eqb_spec (status r1) 400); [lia|]. done.
Qed.

Lemma X5_message_matters_for_400_and_404_only_witness :
  let m1 := "Context length exceeded" in
  let m2 := "Model not found" in
  let r1 := MkResponse 429 (Ok (Fixtures.envelope m1)) [] None in
  let r2 := MkResponse 429 (Ok (Fixtures.envelope m2)) [] None in
  (provider_message r1 = Ok (JStr m1)
   /\ provider_message r2 = Ok (JStr m2)
   /\ status r1 = status r2
   /\ (400 < status r1)%Z
   /\ status r1 <> 404%Z)
  /\ exists e1 e2,
       client.check_response Fixtures.repr0 None r1 = Raise e1
       /\ client.check_response Fixtures.repr0 None r2 = Raise e2
       /\ exn_cls e1 = exn_cls e2
       /\ status_code e1 = status_code e2.
Proof.
  intros m1 m2 r1 r2.
  assert (H3 : provider_message r1 = Ok (JStr m1)) by (vm_compute; reflexivity).
  assert (H4 : provider_message r2 = Ok (JStr m2)) by (vm_compute; reflexivity).
  assert (H5 : status r1 = status r2) by reflexivity.
  assert (H6 : (400 < status r1)%Z) by (simpl; lia).
  assert (H7 : status r1 <> 404%Z) by (simpl; lia).
  split; [by repeat split|].
  exact (X5_message_matters_for_400_and_404_only Fixtures.repr0 None r1 r2 m1 m2
           H3 H4 H5 H6 H7).
Defined.

(** X6.  Whatever [_make_request] raises is the TypeError of its first
    [except] clause, after the one request: an exception of the
    transport raised while the request is made, or an error response
    of the provider, never leaves the function as it is or wrapped
    into an error of the taxonomy. *)
Theorem X6_make_request_raises_type_error_only
    (provider : request -> res ClientResponse) (repr : json -> string)
    (self : client.GeminiClient) (method endpoint : string)
    (data : option (gmap string json)) (stream : bool) (log log' : list request)
    (e : exn) :
  client._make_request provider repr self method endpoint data stream log
  = (Raise e, log') ->
  e = clause_error
  /\ exn_cls e = CTypeError
  /\ taxonomy e = false
  /\ log' = (log ++ [client.build_request self method endpoint data])%list.
Proof.
  intros H.
  destruct (make_request_outcomes provider repr self method endpoint data stream log)
    as [(r & _ & _ & Heq) | Heq]; rewrite Heq in H; [discriminate|].
  by injection H as <- <-.
Qed.

Lemma X6_make_request_raises_type_error_only_witness :
  let e := MkExn CClientError "Cannot connect to host provider.test:443" None in
  let req := client.build_request Fixtures.self0 "GET" "" None in
  client._make_request (fun _ => Raise e) Fixtures.repr0 Fixtures.self0
    "GET" "" None false []
  = (Raise clause_error, [req])
  /\ clause_error = clause_error
     /\ exn_cls clause_error = CTypeError
     /\ taxonomy clause_error = false
     /\ [req] = ([] ++ [req])%list.
Proof.
  intros e req.
  assert (H1 : client._make_request (fun _ => Raise e) Fixtures.repr0 Fixtures.self0
                 "GET" "" None false []
               = (Raise clause_error, [req])) by reflexivity.
  split; [exact H1|].
  exact (X6_make_request_raises_type_error_only (fun _ => Raise e) Fixtures.repr0
           Fixtures.self0 "GET" "" None false [] [req] clause_error H1).
Defined.

(** ** The constructor *)

(** [a or n] is a non-zero integer when [n] is. *)
Lemma or_int_default (a : option Z) (n : Z) :
  n <> 0%Z -> exists m, Py.or_int a (Some n) = Some m /\ m <> 0%Z.
Proof.
  intros Hn. destruct a as [x|]; simpl; [|by exists n].
  destruct (Z.eqb_spec x 0); [by exists n | by exists x].
Qed.

(** X7.  Every client that the constructor returns holds a non-empty
    API key and a non-zero timeout, and constructing it sent no
    request. *)
Theorem X7_constructed_client_has_key_and_timeout
    (e : env.t) (api_key api_base_url : option string) (timeout : option Z)
    (log log' : list request) (c : client.GeminiClient) :
  client.__init__ e api_key api_base_url timeout log = (Ok c, log') ->
  log' = log
  /\ (exists k, client.api_key c = Some k /\ k <> "")
  /\ (exists n, client.timeout c = Some n /\ n <> 0%Z).
Proof.
  unfold client.__init__.
  destruct (Py.or_str api_key (env.GEMINI_API_KEY e)) as [k|] eqn:Hk; simpl; [|done].
  destruct (String.eqb_spec k "") as [Hempty|Hne]; simpl; [done|].
  intros [= <- <-]. split; [done|]. split; [by exists k|]. simpl.
  apply or_int_default. lia.
Qed.

Lemma X7_constructed_client_has_key_and_timeout_witness :
  let c := client.MkClient (Some "key-1")
             (Some "https://provider.test/v1beta/models") (Some 300%Z) in
  client.__init__ Fixtures.env0 None None (Some 0%Z) [] = (Ok c, [])
  /\ ([] : list request) = []
  /\ (exists k, client.api_key c = Some k /\ k <> "")
  /\ (exists n, client.timeout c = Some n /\ n <> 0%Z).
Proof.
  intros c.
  assert (H : client.__init__ Fixtures.env0 None None (Some 0%Z) [] = (Ok c, []))
    by reflexivity.
  split; [exact H|].
  exact (X7_constructed_client_has_key_and_timeout Fixtures.env0 None None
           (Some 0%Z) [] [] c H).
Defined.

(** X8.  Arguments given to the constructor win over the
    configuration: with a non-empty key, a non-empty base URL and a
    non-zero timeout, the client holds exactly the three arguments,
    whatever the environment holds. *)
Theorem X8_explicit_arguments_win
    (e : env.t) (k u : string) (t : Z) (log : list request) :
  k <> "" -> u <> "" -> t <> 0%Z ->
  client.__init__ e (Some k) (Some u) (Some t) log
  = (Ok (client.MkClient (Some k) (Some u) (Some t)), log).
Proof.
  intros Hk Hu Ht. unfold client.__init__, Py.or_str, Py.or_int.
  destruct (String.eqb_spec k ""); [done|].
  destruct (String.eqb_spec u ""); [done|].
  destruct (Z.eqb_spec t 0); [done|]. simpl.
  destruct (String.eqb_spec k ""); [done|]. simpl.
  by destruct (Z.eqb_spec t 0).
Qed.

Lemma X8_explicit_arguments_win_witness :
  ("key-2" <> "" /\ "https://other.test/v1" <> "" /\ 60%Z <> 0%Z)
  /\ client.__init__ Fixtures.env0 (Some "key-2") (Some "https://other.test/v1")
       (Some 60%Z) []
     = (Ok (client.MkClient (Some "key-2") (Some "https://other.test/v1")
              (Some 60%Z)), []).
Proof.
  assert (H1 : "key-2" <> "") by discriminate.
  assert (H2 : "https://other.test/v1" <> "") by discriminate.
  assert (H3 : 60%Z <> 0%Z) by lia.
  split; [by repeat split|].
  exact (X8_explicit_arguments_win Fixtures.env0 "key-2" "https://other.test/v1"
           60 [] H1 H2 H3).
Defined.

(** ** The requests of the client *)

Section ClientRequests.

Variable provider : request -> res ClientResponse.
Variable json_loads : string -> res json.
Variable repr : json -> string.

(** A response below 400 comes back from [_make_request] as it is. *)
Lemma make_request_returns (self : client.GeminiClient) (method endpoint : string)
    (data : option (gmap string json)) (stream : bool) (log : list request)
    (r : ClientResponse) :
  provider (client.build_request self method endpoint data) = Ok r ->
  (status r < 400)%Z ->
  client._make_request provider repr self method endpoint data stream log
  = (Ok r, (log ++ [client.build_request self method endpoint data])%list).
Proof.
  intros Hp Hst. unfold client._make_request. rewrite Hp. simpl.
  unfold client.check_response, ok.
  by replace (status r <? 400)%Z with true by (symmetry; apply Z.ltb_lt; lia).
Qed.

(** X10.  [list_models] sends exactly one request, whatever the
    provider answers and whether the call succeeds or fails: a GET of
    the base URL followed by "/", without a body, with the key of the
    client in the "x-goog-api-key" header.  Nothing is sent twice. *)
Theorem X10_list_models_sends_one_get
    (self : client.GeminiClient) (log : list request) :
  exists req,
    snd (client.list_models provider repr self log) = (log ++ [req])%list
    /\ req_method req = "GET"
    /\ req_url req = Py.str_opt (client.api_base_url self) ++ "/"
    /\ req_json req = None
    /\ req_headers req !! "x-goog-api-key" = Some (Py.str_opt (client.api_key self))
    /\ req_headers req !! "Content-Type" = Some "application/json".
Proof.
  exists (client.build_request self "GET" "" None).
  split; [|by repeat split].
  unfold client.list_models, bind, lift.
  pose proof (make_request_log provider repr self "GET" "" None false log) as H.
  destruct (client._make_request provider repr self "GET" "" None false log)
    as [[resp|e] log'] eqn:E; simpl in *; [|done].
  by destruct (body resp) as [data|]; simpl.
Qed.

(** X11.  For a response with a status below 400 whose body is a JSON
    object, [list_models] returns what the object holds under
    "models", and the empty list when it has no such key. *)
Theorem X11_list_models_returns_models_or_empty
    (self : client.GeminiClient) (log : list request)
    (r : ClientResponse) (d : gmap string json) :
  provider (client.build_request self "GET" "" None) = Ok r ->
  (status r < 400)%Z ->
  body r = Ok (JDict d) ->
  fst (client.list_models provider repr self log)
  = Ok (default (JList []) (d !! "models")).
Proof.
  intros Hp Hst Hb. unfold client.list_models, bind, lift.
  rewrite (make_request_returns self "GET" "" None false log r Hp Hst).
  by rewrite Hb.
Qed.

(** [content_of] succeeds exactly on the messages with a role and a
    content. *)
Lemma content_of_ok (m role text : json) :
  chat_message m role text ->
  client.content_of m = Ok (content_entry role text).
Proof.
  intros (d & -> & Hr & Hc). unfold client.content_of. simpl.
  rewrite Hr. simpl. by rewrite Hc.
Qed.

Lemma content_of_ok_inv (m c : json) :
  client.content_of m = Ok c ->
  exists role text, chat_message m role text /\ c = content_entry role text.
Proof.
  unfold client.content_of.
  destruct m as [| | | | |d]; simpl; try discriminate.
  destruct (d !! "role") as [role|] eqn:Hr; simpl; [|discriminate].
  destruct (d !! "content") as [text|] eqn:Hc; simpl; [|discriminate].
  intros [= <-]. exists role, text. split; [by exists d | done].
Qed.

(** What [content_of] raises is a KeyError or a TypeError. *)
Lemma content_of_raises (m : json) (e : exn) :
  client.content_of m = Raise e ->
  exn_cls e = CKeyError \/ exn_cls e = CTypeError.
Proof.
  unfold client.content_of.
  destruct m as [| | | | |d]; simpl; try (intros [= <-]; by right).
  destruct (d !! "role") as [role|]; simpl; [|intros [= <-]; by left].
  destruct (d !! "content") as [text|]; simpl; [discriminate|intros [= <-]; by left].
Qed.

Lemma contents_of_ok (messages : list json) :
  Forall (fun m => exists role text, chat_message m role text) messages ->
  exists cs,
    client.contents_of messages = Ok cs
    /\ Forall2 (fun m c => exists role text,
                  chat_message m role text /\ c = content_entry role text)
               messages cs.
Proof.
  induction 1 as [|m ms (role & text & Hm) _ (cs & IH & HF)]; simpl.
  - by exists [].
  - rewrite (content_of_ok m role text Hm). simpl. rewrite IH. simpl.
    exists (content_entry role text :: cs). split; [done|].
    constructor; [by exists role, text | done].
Qed.

Lemma contents_of_raises (messages : list json) :
  Exists (fun m => forall role text, ~ chat_message m role text) messages ->
  exists e,
    client.contents_of messages = Raise e
    /\ (exn_cls e = CKeyError \/ exn_cls e = CTypeError).
Proof.
  induction 1 as [m ms Hm | m ms _ (e & IH & He)]; simpl.
  - destruct (client.content_of m) as [c|e] eqn:E; simpl.
    + destruct (content_of_ok_inv m c E) as (role & text & Hc & _).
      by destruct (Hm role text).
    + exists e. split; [done | by apply (content_of_raises m)].
  - destruct (client.content_of m) as [c|e'] eqn:E; simpl.
    + rewrite IH. simpl. by exists e.
    + exists e'. split; [done | by apply (content_of_raises m)].
Qed.

(** X12.  For messages that all have a role and a content, the payload
    of a generation request has, under "contents", one entry per
    message, in the order of the messages, each with the role of its
    message and a single part holding its text; the temperature and
    the token limit are passed on unchanged under "generationConfig". *)
Theorem X12_payload_keeps_messages_in_order
    (messages : list json) (temperature max_tokens : json) :
  Forall (fun m => exists role text, chat_message m role text) messages ->
  exists cs,
    client.payload messages temperature max_tokens
    = Ok {[ "contents" := JList cs;
            "generationConfig" :=
              JDict {[ "temperature" := temperature;
                       "maxOutputTokens" := max_tokens ]} ]}
    /\ Forall2 (fun m c => exists role text,
                  chat_message m role text /\ c = content_entry role text)
               messages cs.
Proof.
  intros H. destruct (contents_of_ok messages H) as (cs & Hc & HF).
  exists cs. split; [|done]. unfold client.payload. by rewrite Hc.
Qed.
(** X13.  When one of the messages has no role or no content, or is no
    dictionary, building the payload raises a KeyError or a TypeError,
    and no request is sent: the generator of the streaming call ends
    with that exception before its first chunk. *)
Theorem X13_malformed_message_fails_before_request
    (self : client.GeminiClient) (model : string) (messages : list json)
    (temperature max_tokens : json) (log : list request) :
  Exists (fun m => forall role text, ~ chat_message m role text) messages ->
  exists e,
    (exn_cls e = CKeyError \/ exn_cls e = CTypeError)
    /\ client.generate_content provider json_loads repr self model messages
         temperature max_tokens true log
       = (Ok ([], Some e), log).
Proof.
  intros H. destruct (contents_of_raises messages H) as (e & Hc & He).
  exists e. split; [done|].
  unfold client.generate_content, client.post_content, client.payload, bind, lift.
  by rewrite Hc.
Qed.


End ClientRequests.

Lemma X11_list_models_returns_models_or_empty_witness :
  let d : gmap string json := {[ "nextPageToken" := JStr "" ]} in
  let r := MkResponse 200 (Ok (JDict d)) [] None in
  ((fun _ : request => Ok r) (client.build_request Fixtures.self0 "GET" "" None) = Ok r
   /\ (status r < 400)%Z
   /\ body r = Ok (JDict d))
  /\ fst (client.list_models (fun _ => Ok r) Fixtures.repr0 Fixtures.self0 [])
     = Ok (JList []).
Proof.
  intros d r.
  assert (H1 : (fun _ : request => Ok r)
                 (client.build_request Fixtures.self0 "GET" "" None) = Ok r)
    by reflexivity.
  assert (H2 : (status r < 400)%Z) by (simpl; lia).
  assert (H3 : body r = Ok (JDict d)) by reflexivity.
  split; [by repeat split|].
  exact (X11_list_models_returns_models_or_empty (fun _ => Ok r) Fixtures.repr0
           Fixtures.self0 [] r d H1 H2 H3).
Defined.

Lemma X12_payload_keeps_messages_in_order_witness :
  Forall (fun m => exists role text, chat_message m role text) [Fixtures.user_hi]
  /\ exists cs,
       client.payload [Fixtures.user_hi] JNull (JNum 64)
       = Ok {[ "contents" := JList cs;
               "generationConfig" :=
                 JDict {[ "temperature" := JNull;
                          "maxOutputTokens" := JNum 64 ]} ]}
       /\ Forall2 (fun m c => exists role text,
                     chat_message m role text /\ c = content_entry role text)
                  [Fixtures.user_hi] cs.
Proof.
  assert (H : Forall (fun m => exists role text, chat_message m role text)
                [Fixtures.user_hi]).
  { constructor; [|constructor]. exists (JStr "user"), (JStr "hi").
    eexists. split; [reflexivity|]. split; reflexivity. }
  split; [exact H|].
  exact (X12_payload_keeps_messages_in_order [Fixtures.user_hi] JNull (JNum 64) H).
Defined.

Lemma X13_malformed_message_fails_before_request_witness :
  let no_content : json := JDict {[ "role" := JStr "user" ]} in
  Exists (fun m => forall role text, ~ chat_message m role text)
    [Fixtures.user_hi; no_content]
  /\ exists e,
       (exn_cls e = CKeyError \/ exn_cls e = CTypeError)
       /\ client.generate_content (Fixtures.answers 200 "") Fixtures.no_loads
            Fixtures.repr0 Fixtures.self0 "gemini-pro"
            [Fixtures.user_hi; no_content] JNull JNull true []
          = (Ok ([], Some e), []).
Proof.
  intros no_content.
  assert (H : Exists (fun m => forall role text, ~ chat_message m role text)
                [Fixtures.user_hi; no_content]).
  { apply Exists_cons_tl, Exists_cons_hd.
    intros role text (d & Hd & _ & Hc). injection Hd as <-.
    vm_compute in Hc. discriminate. }
  split; [exact H|].
  exact (X13_malformed_message_fails_before_request (Fixtures.answers 200 "")
           Fixtures.no_loads Fixtures.repr0 Fixtures.self0 "gemini-pro"
           [Fixtures.user_hi; no_content] JNull JNull [] H).
Defined.


(** ** Normalization and the loop over the stream *)

(** Whatever [_process_response] returns was built by [normalized]. *)
Lemma process_response_ok_inv (data r : json) :
  client._process_response data = Ok r ->
  exists text finish_reason, r = client.normalized text finish_reason.
Proof.
  unfold client._process_response.
  destruct (client.process_body data) as [r'|e] eqn:E;
    [|by destruct (_ || _)].
  intros [= <-]. revert E. unfold client.process_body, res_bind.
  destruct (Py.get data "candidates" (JList [])) as [cands|]; [|discriminate].
  destruct (negb (Py.truthy cands)); [discriminate|].
  destruct (Py.first cands) as [cand|]; [|discriminate].
  destruct (Py.get cand "content" (JDict ∅)) as [cont|]; [|discriminate].
  destruct (Py.get cont "parts" (JList [])) as [parts|]; [|discriminate].
  destruct (negb (Py.truthy parts)); [discriminate|].
  destruct (Py.first parts) as [part|]; [|discriminate].
  destruct (Py.get part "text" (JStr "")) as [text|]; [|discriminate].
  destruct (Py.get cand "finishReason" (JStr "stop")) as [fr|]; [|discriminate].
  intros [= <-]. by exists text, fr.
Qed.

(** X15.  [_process_response] never raises a KeyError or an IndexError:
    the two are turned into the base error of the taxonomy.  So a
    response whose "candidates" is a non-empty object instead of an
    array fails with the message "Failed to process response: 0". *)
Theorem X15_key_and_index_errors_are_converted :
  (forall data e,
     client._process_response data = Raise e ->
     exn_cls e <> CKeyError /\ exn_cls e <> CIndexError)
  /\ (forall (d c : gmap string json),
        d !! "candidates" = Some (JDict c) -> c <> ∅ ->
        client._process_response (JDict d)
        = Raise (errors.GeminiError "Failed to process response: 0" None)).
Proof.
  split.
  - intros data e. unfold client._process_response.
    destruct (client.process_body data) as [r|e']; [discriminate|].
    unfold errors.isinstance, errors.issubclass.
    destruct e' as [c m s]; simpl.
    destruct c; simpl; intros [= <-]; by split.
  - intros d c Hd Hc. unfold client._process_response, client.process_body. simpl.
    rewrite Hd. simpl. by rewrite bool_decide_eq_false_2.
Qed.

(** X16.  Only the first candidate and its first part are read: two
    responses whose first candidates have the same finishReason and
    whose first parts are the same normalize to the same response,
    whatever else the two responses hold. *)
Theorem X16_only_first_candidate_and_part_count
    (d d' cand cand' cont cont' part : gmap string json)
    (cands cands' parts parts' : list json) :
  d !! "candidates" = Some (JList (JDict cand :: cands)) ->
  d' !! "candidates" = Some (JList (JDict cand' :: cands')) ->
  cand !! "content" = Some (JDict cont) ->
  cand' !! "content" = Some (JDict cont') ->
  cont !! "parts" = Some (JList (JDict part :: parts)) ->
  cont' !! "parts" = Some (JList (JDict part :: parts')) ->
  cand !! "finishReason" = cand' !! "finishReason" ->
  client._process_response (JDict d) = client._process_response (JDict d')
  /\ exists r, client._process_response (JDict d) = Ok r.
Proof.
  intros Hd Hd' Hc Hc' Hp Hp' Hf.
  rewrite (process_response_first_part d cand cont part cands parts Hd Hc Hp).
  rewrite (process_response_first_part d' cand' cont' part cands' parts' Hd' Hc' Hp').
  rewrite Hf. split; [done | by eexists].
Qed.

Lemma X16_only_first_candidate_and_part_count_witness :
  let cont' : gmap string json :=
    {[ "parts" := JList [JDict Fixtures.part_hello; JDict {[ "text" := JStr "again" ]}];
       "role" := JStr "model" ]} in
  let cand' : gmap string json :=
    {[ "content" := JDict cont'; "finishReason" := JStr "stop"; "index" := JNum 0 ]} in
  let d' : gmap string json :=
    {[ "candidates" := JList [JDict cand'; JDict Fixtures.candidate_blank];
       "modelVersion" := JStr "1" ]} in
  (Fixtures.hello !! "candidates" = Some (JList (JDict Fixtures.candidate_hello :: []))
   /\ d' !! "candidates"
      = Some (JList (JDict cand' :: [JDict Fixtures.candidate_blank]))
   /\ Fixtures.candidate_hello !! "content" = Some (JDict Fixtures.content_hello)
   /\ cand' !! "content" = Some (JDict cont')
   /\ Fixtures.content_hello !! "parts"
      = Some (JList (JDict Fixtures.part_hello :: []))
   /\ cont' !! "parts"
      = Some (JList (JDict Fixtures.part_hello :: [JDict {[ "text" := JStr "again" ]}]))
   /\ Fixtures.candidate_hello !! "finishReason" = cand' !! "finishReason")
  /\ client._process_response (JDict Fixtures.hello)
     = client._process_response (JDict d')
  /\ exists r, client._process_response (JDict Fixtures.hello) = Ok r.
Proof.
  intros cont' cand' d'.
  assert (H1 : Fixtures.hello !! "candidates"
               = Some (JList (JDict Fixtures.candidate_hello :: []))) by reflexivity.
  assert (H2 : d' !! "candidates"
               = Some (JList (JDict cand' :: [JDict Fixtures.candidate_blank])))
    by reflexivity.
  assert (H3 : Fixtures.candidate_hello !! "content"
               = Some (JDict Fixtures.content_hello)) by reflexivity.
  assert (H4 : cand' !! "content" = Some (JDict cont')) by reflexivity.
  assert (H5 : Fixtures.content_hello !! "parts"
               = Some (JList (JDict Fixtures.part_hello :: []))) by reflexivity.
  assert (H6 : cont' !! "parts"
               = Some (JList (JDict Fixtures.part_hello
                              :: [JDict {[ "text" := JStr "again" ]}])))
    by reflexivity.
  assert (H7 : Fixtures.candidate_hello !! "finishReason" = cand' !! "finishReason")
    by reflexivity.
  split; [by repeat split|].
  exact (X16_only_first_candidate_and_part_count Fixtures.hello d'
           Fixtures.candidate_hello cand' Fixtures.content_hello cont'
           Fixtures.part_hello [] [JDict Fixtures.candidate_blank] []
           [JDict {[ "text" := JStr "again" ]}] H1 H2 H3 H4 H5 H6 H7).
Defined.

Section StreamLoop.

Variable json_loads : string -> res json.

(** X17.  Every chunk of a stream was built by [normalized], so it has
    one choice with the role "assistant" and zero usage; and there are
    at most as many chunks as the stream has non-empty lines. *)
Theorem X17_chunks_are_normalized_responses
    (lines : list string) (stopped : option exn) :
  Forall (fun chunk => exists text finish_reason,
            chunk = client.normalized text finish_reason)
         (client.stream_chunks json_loads lines stopped).1
  /\ (length (client.stream_chunks json_loads lines stopped).1
      <= length (filter (fun line => line <> "") lines))%nat.
Proof.
  induction lines as [|line rest [IH1 IH2]]; simpl; [by split|].
  destruct (String.eqb_spec line "") as [->|Hne].
  - split; [done|]. by rewrite filter_cons_False by (intros H; by apply H).
  - rewrite filter_cons_True by done.
    destruct (json_loads line) as [data|e] eqn:El; simpl.
    + destruct (client._process_response data) as [chunk|e] eqn:Ep; simpl.
      * destruct (client.stream_chunks json_loads rest stopped) as [chunks e'].
        simpl in *. split; [|lia].
        constructor; [by apply (process_response_ok_inv data) | done].
      * destruct (errors.isinstance e CJSONDecodeError); simpl;
          [split; [done | lia] | split; [done | lia]].
    + destruct (errors.isinstance e CJSONDecodeError); simpl;
        [split; [done | lia] | split; [done | lia]].
Qed.

(** X18.  The loop handles a stream piece by piece: the run over two
    pieces of a stream is the run over the first followed, unless that
    one stopped with an exception, by the run over the second. *)
Theorem X18_stream_chunks_of_two_pieces
    (lines1 lines2 : list string) (stopped : option exn) :
  client.stream_chunks json_loads (lines1 ++ lines2) stopped
  = match client.stream_chunks json_loads lines1 None with
    | (chunks1, None) =>
        let '(chunks2, e) := client.stream_chunks json_loads lines2 stopped in
        ((chunks1 ++ chunks2)%list, e)
    | (chunks1, Some e) => (chunks1, Some e)
    end.
Proof.
  induction lines1 as [|line rest IH]; simpl.
  - by destruct (client.stream_chunks json_loads lines2 stopped).
  - destruct (String.eqb line ""); [done|].
    destruct (res_bind (json_loads line) _) as [chunk|e]; simpl.
    + rewrite IH.
      destruct (client.stream_chunks json_loads rest None) as [chunks1 [e1|]];
        [done|].
      by destruct (client.stream_chunks json_loads lines2 stopped).
    + by destruct (errors.isinstance e CJSONDecodeError).
Qed.

(** X19.  A stream in which every line is empty or is rejected by
    [json.loads] with a JSONDecodeError yields no chunk, and ends the
    way the transport ends it. *)
Theorem X19_blank_lines_yield_nothing
    (lines : list string) (stopped : option exn) :
  Forall (blank_line json_loads) lines ->
  client.stream_chunks json_loads lines stopped = ([], stopped).
Proof.
  induction 1 as [|line rest [-> | (e & Hl & Hc)] _ IH]; simpl; [done..|].
  destruct (String.eqb line ""); [done|].
  rewrite Hl. simpl.
  replace (errors.isinstance e CJSONDecodeError) with true
    by (symmetry; by_class Hc).
  done.
Qed.

End StreamLoop.

Lemma X19_blank_lines_yield_nothing_witness :
  let lines := [""; ": keep-alive"; "data: {}"] in
  Forall (blank_line Fixtures.stream_loads) lines
  /\ client.stream_chunks Fixtures.stream_loads lines None = ([], None).
Proof.
  intros lines.
  assert (H : Forall (blank_line Fixtures.stream_loads) lines).
  { constructor; [by left|].
    constructor; [right; eexists; split; reflexivity|].
    constructor; [right; eexists; split; reflexivity|].
    constructor. }
  split; [exact H|].
  exact (X19_blank_lines_yield_nothing Fixtures.stream_loads lines None H).
Defined.

(** ** The routes *)

(** X20.  Updating the configuration and reading it back returns the
    configuration given; the update returns it too, and of two updates
    in a row the second one is what remains. *)
Theorem X20_update_config_then_get_config
    (c1 c2 : router.GeminiConfig) (st : router.State) :
  router.get_config (router.update_config c1 st).2 = Ok c1
  /\ (router.update_config c1 st).1 = c1
  /\ (router.update_config c2 (router.update_config c1 st).2).2
     = (router.update_config c2 st).2.
Proof. by destruct c1, c2. Qed.

Section Routes.

Variable provider : request -> res ClientResponse.
Variable json_loads : string -> res json.
Variable repr : json -> string.
Variable hash_str : list json -> string.

(** The dictionaries [chat_completions] builds from the messages of a
    request all have a role and a content. *)
Lemma router_messages_wellformed (msgs : list router.GeminiChatMessage) :
  Forall (fun m => exists role text, chat_message m role text)
    (message_dicts msgs).
Proof.
  induction msgs as [|msg rest IH]; simpl; constructor; [|done].
  exists (JStr (router.role msg)), (JStr (router.content msg)).
  eexists. split; [reflexivity|]. split; reflexivity.
Qed.

(** What [to_http] lets out is no error of the taxonomy. *)
Lemma to_http_raises {A} (c : M A) (log : list request) (e : exn) :
  fst (router.to_http c log) = Raise e -> taxonomy e = false.
Proof.
  unfold router.to_http, taxonomy.
  destruct (c log) as [[a|e'] log']; simpl; [discriminate|].
  destruct (errors.isinstance e' CGeminiError) eqn:E; simpl; intros [= <-]; done.
Qed.

(** What [to_http] does with an error of the taxonomy. *)
Lemma to_http_taxonomy {A} (c : M A) (log log' : list request) (e : exn) :
  c log = (Raise e, log') ->
  taxonomy e = true ->
  router.to_http c log
  = (Raise (router.HTTPException
              (default 500%Z (Py.or_int (status_code e) (Some 500%Z)))
              (exn_msg e)), log').
Proof.
  unfold router.to_http, taxonomy. intros -> Ht. by rewrite Ht.
Qed.

(** X21.  The two routes never let an error of the taxonomy out:
    whatever [get_models] or [chat_completions] raises is an
    HTTPException or an exception foreign to the taxonomy. *)
Theorem X21_routes_raise_no_taxonomy_error
    (chat_request : router.GeminiChatRequest) (st : router.State)
    (log : list request) (e : exn) :
  (fst (router.get_models provider repr st log) = Raise e -> taxonomy e = false)
  /\ (fst (router.chat_completions provider json_loads repr hash_str
             chat_request st log) = Raise e ->
      taxonomy e = false).
Proof.
  split.
  - unfold router.get_models.
    destruct (router.ENABLE_GEMINI_API st); simpl;
      [apply to_http_raises | by intros [= <-]].
  - unfold router.chat_completions.
    destruct (router.ENABLE_GEMINI_API st); simpl; [|by intros [= <-]].
    destruct (negb _); [by intros [= <-]|].
    apply to_http_raises.
Qed.

End Routes.

Section RouteOutcomes.

Variable provider : request -> res ClientResponse.
Variable json_loads : string -> res json.
Variable repr : json -> string.
Variable hash_str : list json -> string.

(** The payload of a chat request always builds. *)
Lemma chat_payload_builds (msgs : list router.GeminiChatMessage)
    (temperature max_tokens : json) :
  exists data,
    client.payload (message_dicts msgs) temperature max_tokens = Ok data.
Proof.
  destruct (contents_of_ok _ (router_messages_wellformed msgs)) as (cs & Hc & _).
  unfold client.payload. rewrite Hc. simpl. by eexists.
Qed.

(** X22.  With the API enabled and a key configured, a streaming chat
    completion never raises: whatever happens to the request or in the
    stream, the route returns its streaming response.  The events of
    the response follow from the run of the client's generator for the
    messages of the request: when that run ends normally without a
    chunk, the end marker is the one event; in every other case the
    response has no event at all, and is aborted by an exception that
    is no error of the taxonomy.  A data event or an error event is
    never produced. *)
Theorem X22_streaming_route_always_returns_a_stream
    (chat_request : router.GeminiChatRequest) (st : router.State)
    (k : string) (log : list request) :
  router.ENABLE_GEMINI_API st = true ->
  router.GEMINI_API_KEY st = Some k -> k <> "" ->
  router.stream chat_request = Some true ->
  exists run log',
    client.generate_content provider json_loads repr (router.gemini_client st)
      (router.model chat_request) (message_dicts (router.messages chat_request))
      (router.temperature chat_request) (router.max_tokens chat_request) true log
    = (Ok run, log')
    /\ ((run = ([], None)
         /\ router.chat_completions provider json_loads repr hash_str
              chat_request st log
            = (Ok (router.StreamingResponse [router.DoneEvent] None), log'))
        \/ (run <> ([], None)
            /\ exists e,
                 router.chat_completions provider json_loads repr hash_str
                   chat_request st log
                 = (Ok (router.StreamingResponse [] (Some e)), log')
                 /\ taxonomy e = false)).
Proof.
  intros Hon Hk Hne Hs.
  destruct (chat_completions_streaming provider json_loads repr hash_str
              chat_request st k log Hon Hk Hne Hs) as (run & log' & Hrun & ->).
  exists run, log'. split; [exact Hrun|].
  destruct (generate_aborts run) as [[-> ->] | (Hrun' & e & -> & He)].
  - by left.
  - right. split; [done|]. by exists e.
Qed.

(** X23.  In a streaming chat completion an error response of the
    provider is not reported to the consumer: for every response with
    a status of 400 or above, the route sends the one request and
    returns a streaming response without any event, aborted by the
    TypeError of the first [except] clause of [_make_request]; neither
    an error event nor the end marker is yielded, and no HTTPException
    is raised. *)
Theorem X23_streaming_provider_error_aborts_the_stream
    (chat_request : router.GeminiChatRequest) (st : router.State)
    (k : string) (log : list request) (r : ClientResponse) :
  router.ENABLE_GEMINI_API st = true ->
  router.GEMINI_API_KEY st = Some k -> k <> "" ->
  router.stream chat_request = Some true ->
  (forall req, provider req = Ok r) ->
  (400 <= status r)%Z ->
  exists req,
    router.chat_completions provider json_loads repr hash_str chat_request st log
    = (Ok (router.StreamingResponse [] (Some clause_error)), (log ++ [req])%list)
    /\ req_method req = "POST"
    /\ exn_cls clause_error = CTypeError
    /\ taxonomy clause_error = false.
Proof.
  intros Hon Hk Hne Hs Hp Hst.
  destruct (chat_completions_streaming provider json_loads repr hash_str
              chat_request st k log Hon Hk Hne Hs) as (run & log' & Hrun & ->).
  unfold client.generate_content, client.post_content, bind, lift in Hrun.
  destruct (chat_payload_builds (router.messages chat_request)
              (router.temperature chat_request) (router.max_tokens chat_request))
    as (data & Hpay).
  rewrite Hpay in Hrun.
  match type of Hrun with
  | context [client._make_request ?p ?rp ?c ?m ?ep ?d ?s log] =>
      destruct (make_request_outcomes p rp c m ep d s log)
        as [(r' & Hp' & Hlt & _) | Heq];
      [rewrite Hp in Hp'; injection Hp' as <-; lia|];
      rewrite Heq in Hrun;
      exists (client.build_request c m ep d)
  end.
  injection Hrun as <- <-. by repeat split.
Qed.

End RouteOutcomes.

Section BufferedRoute.

Variable provider : request -> res ClientResponse.
Variable json_loads : string -> res json.
Variable repr : json -> string.
Variable hash_str : list json -> string.


End BufferedRoute.

Lemma X22_streaming_route_always_returns_a_stream_witness :
  (router.ENABLE_GEMINI_API Fixtures.st0 = true
   /\ router.GEMINI_API_KEY Fixtures.st0 = Some "key-1"
   /\ "key-1" <> ""
   /\ router.stream (Fixtures.chat_hi true) = Some true)
  /\ exists run log',
       client.generate_content (Fixtures.streams [Fixtures.hello_line] None)
         Fixtures.stream_loads Fixtures.repr0 (router.gemini_client Fixtures.st0)
         (router.model (Fixtures.chat_hi true))
         (message_dicts (router.messages (Fixtures.chat_hi true)))
         (router.temperature (Fixtures.chat_hi true))
         (router.max_tokens (Fixtures.chat_hi true)) true []
       = (Ok run, log')
       /\ ((run = ([], None)
            /\ router.chat_completions (Fixtures.streams [Fixtures.hello_line] None)
                 Fixtures.stream_loads Fixtures.repr0 Fixtures.hash0
                 (Fixtures.chat_hi true) Fixtures.st0 []
               = (Ok (router.StreamingResponse [router.DoneEvent] None), log'))
           \/ (run <> ([], None)
               /\ exists e,
                    router.chat_completions
                      (Fixtures.streams [Fixtures.hello_line] None)
                      Fixtures.stream_loads Fixtures.repr0 Fixtures.hash0
                      (Fixtures.chat_hi true) Fixtures.st0 []
                    = (Ok (router.StreamingResponse [] (Some e)), log')
                    /\ taxonomy e = false)).
Proof.
  assert (H1 : router.ENABLE_GEMINI_API Fixtures.st0 = true) by reflexivity.
  assert (H2 : router.GEMINI_API_KEY Fixtures.st0 = Some "key-1") by reflexivity.
  assert (H3 : "key-1" <> "") by discriminate.
  assert (H4 : router.stream (Fixtures.chat_hi true) = Some true) by reflexivity.
  split; [by repeat split|].
  exact (X22_streaming_route_always_returns_a_stream
           (Fixtures.streams [Fixtures.hello_line] None) Fixtures.stream_loads
           Fixtures.repr0 Fixtures.hash0 (Fixtures.chat_hi true) Fixtures.st0
           "key-1" [] H1 H2 H3 H4).
Defined.

Lemma X23_streaming_provider_error_aborts_the_stream_witness :
  let msg := "quota exceeded" in
  let r := MkResponse 429 (Ok (Fixtures.envelope msg)) [] None in
  (router.ENABLE_GEMINI_API Fixtures.st0 = true
   /\ router.GEMINI_API_KEY Fixtures.st0 = Some "key-1"
   /\ "key-1" <> ""
   /\ router.stream (Fixtures.chat_hi true) = Some true
   /\ (forall req, Fixtures.answers 429 msg req = Ok r)
   /\ (400 <= status r)%Z)
  /\ exists req,
       router.chat_completions (Fixtures.answers 429 msg) Fixtures.stream_loads
         Fixtures.repr0 Fixtures.hash0 (Fixtures.chat_hi true) Fixtures.st0 []
       = (Ok (router.StreamingResponse [] (Some clause_error)), ([] ++ [req])%list)
       /\ req_method req = "POST"
       /\ exn_cls clause_error = CTypeError
       /\ taxonomy clause_error = false.
Proof.
  intros msg r.
  assert (H1 : router.ENABLE_GEMINI_API Fixtures.st0 = true) by reflexivity.
  assert (H2 : router.GEMINI_API_KEY Fixtures.st0 = Some "key-1") by reflexivity.
  assert (H3 : "key-1" <> "") by discriminate.
  assert (H4 : router.stream (Fixtures.chat_hi true) = Some true) by reflexivity.
  assert (H5 : forall req, Fixtures.answers 429 msg req = Ok r) by reflexivity.
  assert (H6 : (400 <= status r)%Z) by (simpl; lia).
  split; [by repeat split|].
  exact (X23_streaming_provider_error_aborts_the_stream (Fixtures.answers 429 msg)
           Fixtures.stream_loads Fixtures.repr0 Fixtures.hash0
           (Fixtures.chat_hi true) Fixtures.st0 "key-1" [] r H1 H2 H3 H4 H5 H6).
Defined.


(** ** The model listing *)

Lemma string_app_cons (c : ascii) (a b : string) :
  String c a ++ b = String c (a ++ b).
Proof. reflexivity. Qed.

Lemma string_app_assoc (a b c : string) : (a ++ b) ++ c = a ++ b ++ c.
Proof.
  induction a as [|x a IH]; [done|].
  by rewrite !string_app_cons, IH.
Qed.

Lemma string_app_nil_r (a : string) : a ++ "" = a.
Proof. induction a as [|x a IH]; [done | by rewrite string_app_cons, IH]. Qed.

Lemma last_segment_no_slash (s acc : string) :
  has_slash s = false -> router.last_segment s acc = acc ++ s.
Proof.
  revert acc. induction s as [|c s IH]; intros acc; simpl.
  - intros _. by rewrite string_app_nil_r.
  - destruct (Ascii.eqb c "/"); simpl; [discriminate|].
    intros H. rewrite (IH _ H). apply string_app_assoc.
Qed.

Lemma last_segment_after_slash (a b acc : string) :
  router.last_segment (a ++ "/" ++ b) acc = router.last_segment b "".
Proof.
  revert acc. induction a as [|c a IH]; intros acc.
  - reflexivity.
  - rewrite string_app_cons. simpl. by destruct (Ascii.eqb c "/").
Qed.

Lemma has_slash_app (a b : string) :
  has_slash (a ++ b) = has_slash a || has_slash b.
Proof.
  induction a as [|x a IH]; [done|].
  rewrite string_app_cons. simpl. by rewrite IH, orb_assoc.
Qed.

Lemma last_segment_has_no_slash (s acc : string) :
  has_slash acc = false -> has_slash (router.last_segment s acc) = false.
Proof.
  revert acc. induction s as [|c s IH]; intros acc Hacc; simpl; [done|].
  destruct (Ascii.eqb c "/") eqn:E; [by apply IH|].
  apply IH. rewrite has_slash_app, Hacc. simpl. by rewrite E.
Qed.

(** X27.  The id of a model is what follows the last "/" of its name:
    a name without "/" is its own id, a name that ends in "/" followed
    by a text without "/" has that text as id, and an id never
    contains "/". *)
Theorem X27_model_id_is_last_segment (a b : string) :
  has_slash b = false ->
  router.last_segment b "" = b
  /\ router.last_segment (a ++ "/" ++ b) "" = b
  /\ has_slash (router.last_segment a "") = false.
Proof.
  intros Hb. split; [|split].
  - by rewrite (last_segment_no_slash b "" Hb).
  - by rewrite last_segment_after_slash, (last_segment_no_slash b "" Hb).
  - by apply last_segment_has_no_slash.
Qed.

Lemma X27_model_id_is_last_segment_witness :
  has_slash "gemini-pro" = false
  /\ router.last_segment "gemini-pro" "" = "gemini-pro"
  /\ router.last_segment ("models" ++ "/" ++ "gemini-pro") "" = "gemini-pro"
  /\ has_slash (router.last_segment "models" "") = false.
Proof.
  assert (H : has_slash "gemini-pro" = false) by reflexivity.
  split; [exact H|].
  exact (X27_model_id_is_last_segment "models" "gemini-pro" H).
Defined.

Lemma to_model_named (m : json) :
  named m -> exists o, router.to_model m = Ok o /\ model_entry m o.
Proof.
  intros (d & s & -> & Hn & _). unfold router.to_model. simpl. rewrite Hn. simpl.
  eexists. split; [reflexivity|]. by exists d, s.
Qed.

Lemma to_models_named (ms : list json) :
  Forall named ms ->
  exists out, router.to_models ms = Ok out /\ Forall2 model_entry ms out.
Proof.
  induction 1 as [|m ms Hm _ (out & IH & HF)]; simpl; [by exists []|].
  destruct (to_model_named m Hm) as (o & -> & Ho). simpl. rewrite IH. simpl.
  exists (o :: out). split; [done | by constructor].
Qed.

Lemma to_models_nameless (good rest : list json) (d : gmap string json) :
  Forall named good ->
  d !! "name" = None ->
  router.to_models (good ++ JDict d :: rest)
  = Raise (MkExn CKeyError "'name'" None).
Proof.
  intros Hg Hd. induction Hg as [|m ms Hm _ IH]; simpl.
  - unfold router.to_model. simpl. by rewrite Hd.
  - destruct (to_model_named m Hm) as (o & -> & _). simpl. by rewrite IH.
Qed.

Section Listing.

Variable provider : request -> res ClientResponse.
Variable repr : json -> string.

(** What [get_models] does with the list of models of the provider. *)
Lemma get_models_of_list (st : router.State) (log : list request)
    (r : ClientResponse) (d : gmap string json) (ms : list json) :
  router.ENABLE_GEMINI_API st = true ->
  (forall req, provider req = Ok r) ->
  (status r < 400)%Z ->
  body r = Ok (JDict d) ->
  d !! "models" = Some (JList ms) ->
  fst (router.get_models provider repr st log)
  = fst (router.to_http (lift (router.to_models ms)) log).
Proof.
  intros Hon Hp Hst Hb Hd. unfold router.get_models. rewrite Hon. simpl.
  unfold router.to_http, bind, lift, client.list_models, bind, lift.
  rewrite (make_request_returns provider repr _ _ _ _ _ _ r (Hp _) Hst).
  rewrite Hb. simpl. rewrite Hd. simpl.
  by destruct (router.to_models ms) as [out|e]; [|destruct (errors.isinstance _ _)].
Qed.

(** X28.  With the API enabled, the model listing returns one entry
    per model of the provider, in the provider's order.  The id of an
    entry is the last segment of the model's name; the name is the
    display name, or the name itself; the description defaults to the
    empty string and the token limit to 30720. *)
Theorem X28_get_models_converts_each_model
    (st : router.State) (log : list request)
    (r : ClientResponse) (d : gmap string json) (ms : list json) :
  router.ENABLE_GEMINI_API st = true ->
  (forall req, provider req = Ok r) ->
  (status r < 400)%Z ->
  body r = Ok (JDict d) ->
  d !! "models" = Some (JList ms) ->
  Forall named ms ->
  exists out,
    fst (router.get_models provider repr st log) = Ok out
    /\ Forall2 model_entry ms out.
Proof.
  intros Hon Hp Hst Hb Hd Hms.
  rewrite (get_models_of_list st log r d ms Hon Hp Hst Hb Hd).
  destruct (to_models_named ms Hms) as (out & Ho & HF).
  exists out. split; [|done]. unfold router.to_http, lift. by rewrite Ho.
Qed.

(** X29.  One model without a "name" breaks the whole listing: the
    route raises the KeyError of the lookup, which is no error of the
    taxonomy and is not turned into an HTTPException, and the entries
    converted before it are lost. *)
Theorem X29_nameless_model_breaks_the_listing
    (st : router.State) (log : list request) (r : ClientResponse)
    (d nameless : gmap string json) (good rest : list json) :
  router.ENABLE_GEMINI_API st = true ->
  (forall req, provider req = Ok r) ->
  (status r < 400)%Z ->
  body r = Ok (JDict d) ->
  d !! "models" = Some (JList (good ++ JDict nameless :: rest)) ->
  Forall named good ->
  nameless !! "name" = None ->
  fst (router.get_models provider repr st log)
  = Raise (MkExn CKeyError "'name'" None).
Proof.
  intros Hon Hp Hst Hb Hd Hg Hn.
  rewrite (get_models_of_list st log r d _ Hon Hp Hst Hb Hd).
  unfold router.to_http, lift.
  by rewrite (to_models_nameless good rest nameless Hg Hn).
Qed.

End Listing.

Lemma X28_get_models_converts_each_model_witness :
  let m : json := JDict {[ "name" := JStr "models/gemini-pro" ]} in
  let d : gmap string json := {[ "models" := JList [m] ]} in
  let r := MkResponse 200 (Ok (JDict d)) [] None in
  (router.ENABLE_GEMINI_API Fixtures.st0 = true
   /\ (forall req : request, (fun _ : request => Ok r) req = Ok r)
   /\ (status r < 400)%Z
   /\ body r = Ok (JDict d)
   /\ d !! "models" = Some (JList [m])
   /\ Forall named [m])
  /\ exists out,
       fst (router.get_models (fun _ => Ok r) Fixtures.repr0 Fixtures.st0 []) = Ok out
       /\ Forall2 model_entry [m] out.
Proof.
  intros m d r.
  assert (H1 : router.ENABLE_GEMINI_API Fixtures.st0 = true) by reflexivity.
  assert (H2 : forall req : request, (fun _ : request => Ok r) req = Ok r)
    by reflexivity.
  assert (H3 : (status r < 400)%Z) by (simpl; lia).
  assert (H4 : body r = Ok (JDict d)) by reflexivity.
  assert (H5 : d !! "models" = Some (JList [m])) by reflexivity.
  assert (H6 : Forall named [m]).
  { constructor; [|constructor]. eexists _, _. split; [reflexivity|].
    split; [reflexivity|]. repeat split; left; reflexivity. }
  split; [by repeat split|].
  exact (X28_get_models_converts_each_model (fun _ => Ok r) Fixtures.repr0
           Fixtures.st0 [] r d [m] H1 H2 H3 H4 H5 H6).
Defined.

Lemma X29_nameless_model_breaks_the_listing_witness :
  let m : json := JDict {[ "name" := JStr "models/gemini-pro" ]} in
  let nameless : gmap string json := {[ "displayName" := JStr "Gemini" ]} in
  let d : gmap string json := {[ "models" := JList ([m] ++ JDict nameless :: []) ]} in
  let r := MkResponse 200 (Ok (JDict d)) [] None in
  (router.ENABLE_GEMINI_API Fixtures.st0 = true
   /\ (forall req : request, (fun _ : request => Ok r) req = Ok r)
   /\ (status r < 400)%Z
   /\ body r = Ok (JDict d)
   /\ d !! "models" = Some (JList ([m] ++ JDict nameless :: []))
   /\ Forall named [m]
   /\ nameless !! "name" = None)
  /\ fst (router.get_models (fun _ => Ok r) Fixtures.repr0 Fixtures.st0 [])
     = Raise (MkExn CKeyError "'name'" None).
Proof.
  intros m nameless d r.
  assert (H1 : router.ENABLE_GEMINI_API Fixtures.st0 = true) by reflexivity.
  assert (H2 : forall req : request, (fun _ : request => Ok r) req = Ok r)
    by reflexivity.
  assert (H3 : (status r < 400)%Z) by (simpl; lia).
  assert (H4 : body r = Ok (JDict d)) by reflexivity.
  assert (H5 : d !! "models" = Some (JList ([m] ++ JDict nameless :: [])))
    by reflexivity.
  assert (H6 : Forall named [m]).
  { constructor; [|constructor]. eexists _, _. split; [reflexivity|].
    split; [reflexivity|]. repeat split; left; reflexivity. }
  assert (H7 : nameless !! "name" = None) by reflexivity.
  split; [by repeat split|].
  exact (X29_nameless_model_breaks_the_listing (fun _ => Ok r) Fixtures.repr0
           Fixtures.st0 [] r d nameless [m] [] H1 H2 H3 H4 H5 H6 H7).
Defined.

(** ** errors.py *)

(** X30.  The seven specialised errors are instances of
    [GeminiAPIError] and of [GeminiError], the two base classes are
    instances of none of them, and no specialised class derives from
    another: a handler for one of them catches that one only.  In
    particular a handler for InvalidRequest does not catch
    ContextLengthExceeded, although both carry the status code 400. *)
Theorem X30_specialised_errors_are_unrelated (c : exn_class) :
  specialised c = true ->
  errors.issubclass c CGeminiAPIError = true
  /\ errors.issubclass c CGeminiError = true
  /\ errors.issubclass CGeminiAPIError c = false
  /\ errors.issubclass CGeminiError c = false
  /\ forall d, specialised d = true -> (errors.issubclass c d = true <-> c = d).
Proof.
  intros Hc. do 4 (split; [by destruct c|]).
  intros d Hd. split.
  - destruct c; try discriminate Hc; destruct d; by try discriminate Hd.
  - intros <-. by destruct c.
Qed.

Lemma X30_specialised_errors_are_unrelated_witness :
  specialised CGeminiContextLengthExceededError = true
  /\ errors.issubclass CGeminiContextLengthExceededError CGeminiAPIError = true
  /\ errors.issubclass CGeminiContextLengthExceededError CGeminiError = true
  /\ errors.issubclass CGeminiAPIError CGeminiContextLengthExceededError = false
  /\ errors.issubclass CGeminiError CGeminiContextLengthExceededError = false
  /\ forall d, specialised d = true ->
       (errors.issubclass CGeminiContextLengthExceededError d = true
        <-> CGeminiContextLengthExceededError = d).
Proof.
  assert (H : specialised CGeminiContextLengthExceededError = true) by reflexivity.
  split; [exact H|].
  exact (X30_specialised_errors_are_unrelated CGeminiContextLengthExceededError H).
Defined.
